(** * Bring-up sequence, link-event handler and watchdog loop of [app_main.cpp]

    The firmware in [main/app_main.cpp] is a sequence of calls into the
    ESP-IDF, FreeRTOS, LovyanGFX and LVGL libraries.  The embedding keeps the
    globals [wifi_connected], [bt_enabled] and the bits of [wifi_event_group]
    as a record (the widget handles are left to the UI engine), and records
    every library call in a trace tagged with the task that issues it.  What a library call
    returns is supplied by an environment record; [esp_restart] does not
    return, which is the [Rebooted] result of the monad below. *)

From Stdlib Require Import ZArith List String Bool Lia.
Import ListNotations.
Open Scope Z_scope.

(** ** Constants *)

(** Constants that [app_main.cpp] takes from the SDK headers.  The file only
    compares against them, so they are kept abstract; [idf] further down
    gives the values of the ESP-IDF headers. *)
Record sdk_constants : Type := mkSdk {
  ESP_OK : Z;
  ESP_ERR_NVS_NO_FREE_PAGES : Z;
  ESP_ERR_NVS_NEW_VERSION_FOUND : Z;
  WIFI_EVENT_STA_START : Z;
  WIFI_EVENT_STA_DISCONNECTED : Z;
  IP_EVENT_STA_GOT_IP : Z
}.

Definition idf : sdk_constants :=
  {| ESP_OK := 0;
     ESP_ERR_NVS_NO_FREE_PAGES := 0x110d;
     ESP_ERR_NVS_NEW_VERSION_FOUND := 0x1110;
     WIFI_EVENT_STA_START := 2;
     WIFI_EVENT_STA_DISCONNECTED := 5;
     IP_EVENT_STA_GOT_IP := 0 |}.

Definition SCREEN_WIDTH : Z := 320.
Definition SCREEN_HEIGHT : Z := 480.
Definition LVGL_TICK_MS : Z := 16.
Definition BIT0 : Z := Z.shiftl 1 0.
Definition WIFI_CONNECTED_BIT : Z := BIT0.
Definition WIFI_SSID : string := "VotreSSID".
Definition WIFI_PASS : string := "VotrePass".

(** ** Library calls and traces *)

Inductive log_level : Type := LOGI | LOGW | LOGE.

Inductive esp_event_base_t : Type := WIFI_EVENT | IP_EVENT.

Inductive event_filter : Type := ESP_EVENT_ANY_ID | event_id_is (id : Z).

Record LGFX_Config : Type := mkLGFX {
  panel_width : Z;
  panel_height : Z;
  bus_qspi : bool;
  pin_qspi_cs : Z;
  pin_qspi_sclk : Z;
  pin_qspi_d0 : Z;
  pin_qspi_d1 : Z;
  pin_qspi_d2 : Z;
  pin_qspi_d3 : Z;
  qspi_frequency : Z;
  use_dma : bool
}.

Record lv_area_t : Type := mkArea { x1 : Z; y1 : Z; x2 : Z; y2 : Z }.

Inductive call : Type :=
  | ESP_LOG (lvl : log_level) (fmt : string) (args : list Z)
  (* persistent configuration store *)
  | nvs_flash_init
  | nvs_flash_erase
  (* FreeRTOS *)
  | xEventGroupCreate
  | xEventGroupWaitBits (bits : Z) (clear_on_exit wait_all : bool) (timeout_ms : Z)
  | xEventGroupSetBits (bits : Z)
  | xTaskCreate (name : string) (stack : Z) (priority : Z)
  | vTaskDelay (ms : Z)
  (* display *)
  | lcd_setConfig (cfg : LGFX_Config)
  | lcd_init
  | lcd_setBrightness (level : Z)
  | lcd_pushColors (pixels : Z)
  | esp_restart
  (* storage *)
  | esp_vfs_fat_sdmmc_mount (path : string) (format_if_mount_failed : bool) (max_files : Z)
  (* wireless *)
  | esp_netif_init
  | esp_event_loop_create_default
  | esp_netif_create_default_wifi_sta
  | esp_wifi_init
  | esp_event_handler_instance_register (base : esp_event_base_t) (id : event_filter)
  | esp_wifi_set_mode
  | esp_wifi_set_config (ssid password : string)
  | esp_wifi_start
  | esp_wifi_connect
  (* short-range radio *)
  | esp_bt_controller_init
  | esp_bt_controller_enable
  | esp_bluedroid_init
  | esp_bluedroid_enable
  (* time sync *)
  | esp_sntp_setoperatingmode
  | esp_sntp_setservername (idx : Z) (server : string)
  | esp_sntp_init
  (* UI engine *)
  | lv_init
  | lv_tick_inc (ms : Z)
  | lv_task_handler
  | lv_disp_flush_ready
  | lv_widget (fn : string)
  | esp_timer_create (name : string)
  | esp_timer_start_periodic (period_us : Z)
  (* watchdog *)
  | esp_task_wdt_init (timeout_s : Z) (panic : bool)
  | esp_task_wdt_add
  | esp_task_wdt_reset.

(** The execution contexts of the firmware: the main task that runs
    [app_main], the task created for [lvgl_task], the timer service that runs
    [lv_tick_handler] and the event loop that runs [wifi_event_handler]. *)
Inductive task : Type := MainTask | RenderTask | TimerTask | EventTask.

Definition task_eqb (a b : task) : bool :=
  match a, b with
  | MainTask, MainTask | RenderTask, RenderTask
  | TimerTask, TimerTask | EventTask, EventTask => true
  | _, _ => false
  end.

Definition trace : Type := list (task * call).

(** ** Globals of the file *)

Record globals : Type := mkGlobals {
  wifi_connected : bool;
  bt_enabled : bool;
  wifi_event_group : Z      (* the bits held by the event group *)
}.

Definition initial_globals : globals :=
  {| wifi_connected := false; bt_enabled := false; wifi_event_group := 0 |}.

Definition set_wifi_connected (b : bool) (g : globals) : globals :=
  {| wifi_connected := b; bt_enabled := bt_enabled g;
     wifi_event_group := wifi_event_group g |}.

Definition set_bt_enabled (b : bool) (g : globals) : globals :=
  {| wifi_connected := wifi_connected g; bt_enabled := b;
     wifi_event_group := wifi_event_group g |}.

Definition set_event_bits (v : Z) (g : globals) : globals :=
  {| wifi_connected := wifi_connected g; bt_enabled := bt_enabled g;
     wifi_event_group := v |}.

(** ** A monad for straight-line firmware code

    A computation reads and writes the globals, appends to the trace and
    either returns or ends in a device restart. *)

Inductive result (A : Type) : Type :=
  | Done (a : A) (g : globals) (t : trace)
  | Rebooted (g : globals) (t : trace).
Arguments Done {A} a g t.
Arguments Rebooted {A} g t.

Definition M (A : Type) : Type := globals -> result A.

Definition ret {A} (a : A) : M A := fun g => Done a g [].

Definition bind {A B} (m : M A) (f : A -> M B) : M B :=
  fun g =>
    match m g with
    | Done a g1 t1 =>
        match f a g1 with
        | Done b g2 t2 => Done b g2 (t1 ++ t2)
        | Rebooted g2 t2 => Rebooted g2 (t1 ++ t2)
        end
    | Rebooted g1 t1 => Rebooted g1 t1
    end.

Declare Scope fw_scope.
Delimit Scope fw_scope with fw.
Notation "x <- m ;; k" := (bind m (fun x => k))
  (at level 61, m at next level, right associativity) : fw_scope.
Notation "m ;; k" := (bind m (fun _ => k))
  (at level 61, right associativity) : fw_scope.
Open Scope fw_scope.

(** [invoke ctx c r]: task [ctx] calls [c], which returns [r]. *)
Definition invoke {A} (ctx : task) (c : call) (r : A) : M A :=
  fun g => Done r g [(ctx, c)].

Definition emit (ctx : task) (c : call) : M unit := invoke ctx c tt.

Definition modify (f : globals -> globals) : M unit :=
  fun g => Done tt (f g) [].

(** [esp_restart] resets the chip and never returns to its caller. *)
Definition do_restart (ctx : task) : M unit :=
  fun g => Rebooted g [(ctx, esp_restart)].

Definition trace_of {A} (r : result A) : trace :=
  match r with Done _ _ t => t | Rebooted _ t => t end.

Definition globals_of {A} (r : result A) : globals :=
  match r with Done _ g _ => g | Rebooted g _ => g end.

Definition returned {A} (r : result A) : bool :=
  match r with Done _ _ _ => true | Rebooted _ _ => false end.

(** The calls one task issued, in order. *)
Definition calls_of (ctx : task) (t : trace) : list call :=
  map snd (filter (fun e => task_eqb (fst e) ctx) t).

Fixpoint emit_all (ctx : task) (cs : list call) : M unit :=
  match cs with
  | [] => ret tt
  | c :: rest => emit ctx c ;; emit_all ctx rest
  end.

Definition ESP_LOGI (ctx : task) (fmt : string) (args : list Z) : M unit :=
  emit ctx (ESP_LOG LOGI fmt args).
Definition ESP_LOGW (ctx : task) (fmt : string) (args : list Z) : M unit :=
  emit ctx (ESP_LOG LOGW fmt args).
Definition ESP_LOGE (ctx : task) (fmt : string) (args : list Z) : M unit :=
  emit ctx (ESP_LOG LOGE fmt args).

(** What the libraries answer during one boot.  The statuses that
    [app_main.cpp] discards are part of the environment all the same, so that
    statements can speak of a call that failed. *)
Record boot_env : Type := mkEnv {
  nvs_first_init : Z;            (* result of the first nvs_flash_init *)
  nvs_erase_status : Z;          (* result of nvs_flash_erase *)
  nvs_second_init : Z;           (* result of the nvs_flash_init after the erase *)
  lcd_init_ok : bool;            (* result of lcd.init() *)
  sdmmc_mount_status : Z;        (* result of esp_vfs_fat_sdmmc_mount *)
  link_events : list (esp_event_base_t * Z);
                                 (* events posted, in order, before the wait of
                                    wifi_init runs out *)
  bt_controller_init_status : Z;
  bt_controller_enable_status : Z;
  bluedroid_init_status : Z;
  bluedroid_enable_status : Z
}.

Section Firmware.

Variable K : sdk_constants.

(** *** lvgl_driver_init *)

Definition lgfx_cfg : LGFX_Config :=
  {| panel_width := SCREEN_WIDTH;
     panel_height := SCREEN_HEIGHT;
     bus_qspi := true;
     pin_qspi_cs := 10;
     pin_qspi_sclk := 9;
     pin_qspi_d0 := 11;
     pin_qspi_d1 := 12;
     pin_qspi_d2 := 13;
     pin_qspi_d3 := 14;
     qspi_frequency := 80000000;
     use_dma := true |}.

Definition lvgl_driver_init (init_ok : bool) : M unit :=
  ESP_LOGI MainTask "Init LovyanGFX QSPI..." [] ;;
  emit MainTask (lcd_setConfig lgfx_cfg) ;;
  ok <- invoke MainTask lcd_init init_ok ;;
  (if negb ok then
     ESP_LOGE MainTask "QSPI Init Fail - Pins/EMI? Retry shield." [] ;;
     do_restart MainTask
   else ret tt) ;;
  emit MainTask (lcd_setBrightness 128) ;;
  ESP_LOGI MainTask "QSPI OK - Freq %d MHz" [qspi_frequency lgfx_cfg / 1000000].

(** *** lv_tick_handler, lvgl_task *)

Definition lv_tick_handler : M unit :=
  emit TimerTask (lv_tick_inc LVGL_TICK_MS).

(** The flush callback installed by [create_ui]; the UI engine calls it from
    inside [lv_task_handler]. *)
Definition flush_cb (area : lv_area_t) : M unit :=
  emit RenderTask
    (lcd_pushColors ((x2 area - x1 area + 1) * (y2 area - y1 area + 1))) ;;
  emit RenderTask lv_disp_flush_ready.

Fixpoint flush_each (areas : list lv_area_t) : M unit :=
  match areas with
  | [] => ret tt
  | a :: rest => flush_cb a ;; flush_each rest
  end.

Definition lvgl_task_start : M unit :=
  ESP_LOGI RenderTask "LVGL Task Start" [].

(** One turn of the [while (1)] of [lvgl_task]; [areas] are the regions the
    UI engine flushes during this [lv_task_handler]. *)
Definition lvgl_task_period (areas : list lv_area_t) : M unit :=
  emit RenderTask lv_task_handler ;;
  flush_each areas ;;
  emit RenderTask (vTaskDelay LVGL_TICK_MS).

(** *** create_ui *)

Definition create_ui_calls : list call :=
  [ lv_widget "lv_disp_drv_init"; lv_widget "lv_disp_drv_register";
    lv_widget "lv_scr_act"; lv_widget "lv_obj_create";
    lv_widget "lv_obj_set_size"; lv_widget "lv_obj_set_pos";
    lv_widget "lv_color_hex"; lv_widget "lv_obj_set_style_bg_color";
    lv_widget "lv_label_create"; lv_widget "lv_label_set_text";
    lv_widget "lv_obj_align";
    lv_widget "lv_label_create"; lv_widget "lv_obj_align";
    lv_widget "lv_label_create"; lv_widget "lv_obj_align";
    lv_widget "lv_scr_act"; lv_widget "lv_btn_create";
    lv_widget "lv_obj_set_pos"; lv_widget "lv_label_create";
    lv_widget "lv_label_set_text";
    lv_widget "lv_scr_act"; lv_widget "lv_keyboard_create";
    lv_widget "lv_keyboard_set_mode"; lv_widget "lv_obj_set_size";
    lv_widget "lv_obj_align"; lv_widget "lv_obj_add_flag";
    lv_widget "lv_scr_act"; lv_widget "lv_textarea_create";
    lv_widget "lv_obj_set_pos"; lv_widget "lv_textarea_set_placeholder_text";
    lv_widget "lv_obj_add_event_cb";
    lv_widget "lv_timer_create" ].

Definition create_ui : M unit :=
  ESP_LOGI MainTask "Create UI" [] ;;
  emit_all MainTask create_ui_calls.

(** *** wifi_event_handler *)

Definition do_xEventGroupSetBits (ctx : task) (bits : Z) : M unit :=
  emit ctx (xEventGroupSetBits bits) ;;
  modify (fun g => set_event_bits (Z.lor (wifi_event_group g) bits) g).

Definition wifi_event_handler (event_base : esp_event_base_t) (event_id : Z)
  : M unit :=
  if event_id =? WIFI_EVENT_STA_START K then
    emit EventTask esp_wifi_connect
  else if event_id =? WIFI_EVENT_STA_DISCONNECTED K then
    modify (set_wifi_connected false) ;;
    emit EventTask esp_wifi_connect ;;
    ESP_LOGW EventTask "WiFi Disconnect - Retry" []
  else if event_id =? IP_EVENT_STA_GOT_IP K then
    modify (set_wifi_connected true) ;;
    do_xEventGroupSetBits EventTask WIFI_CONNECTED_BIT ;;
    ESP_LOGI EventTask "WiFi IP OK" []
  else ret tt.

(** The event loop hands an event to the handler when one of the two
    registrations of [wifi_init] matches it: every [WIFI_EVENT], and the
    [IP_EVENT] with id [IP_EVENT_STA_GOT_IP]. *)
Definition registered (event_base : esp_event_base_t) (event_id : Z) : bool :=
  match event_base with
  | WIFI_EVENT => true
  | IP_EVENT => event_id =? IP_EVENT_STA_GOT_IP K
  end.

Definition deliver (ev : esp_event_base_t * Z) : M unit :=
  if registered (fst ev) (snd ev) then wifi_event_handler (fst ev) (snd ev)
  else ret tt.

Fixpoint deliver_all (evs : list (esp_event_base_t * Z)) : M unit :=
  match evs with
  | [] => ret tt
  | ev :: rest => deliver ev ;; deliver_all rest
  end.

(** *** wifi_init *)

(** [xEventGroupWaitBits(group, bits, pdFALSE, pdTRUE, ticks)]: the caller is
    blocked until all of [bits] are set or the timeout runs out, and gets the
    value of the group at that moment.  [evs] are the events the event loop
    handles before the timeout runs out. *)
Fixpoint wait_bits (bits : Z) (evs : list (esp_event_base_t * Z)) : M Z :=
  fun g =>
    if Z.land (wifi_event_group g) bits =? bits then
      Done (wifi_event_group g) g []
    else
      match evs with
      | [] => Done (wifi_event_group g) g []
      | ev :: rest => (deliver ev ;; wait_bits bits rest) g
      end.

Definition wifi_init (evs : list (esp_event_base_t * Z)) : M unit :=
  ESP_LOGI MainTask "Init WiFi" [] ;;
  emit MainTask esp_netif_init ;;
  emit MainTask esp_event_loop_create_default ;;
  emit MainTask esp_netif_create_default_wifi_sta ;;
  emit MainTask esp_wifi_init ;;
  emit MainTask (esp_event_handler_instance_register WIFI_EVENT ESP_EVENT_ANY_ID) ;;
  emit MainTask (esp_event_handler_instance_register IP_EVENT
                   (event_id_is (IP_EVENT_STA_GOT_IP K))) ;;
  emit MainTask esp_wifi_set_mode ;;
  emit MainTask (esp_wifi_set_config WIFI_SSID WIFI_PASS) ;;
  emit MainTask esp_wifi_start ;;
  emit MainTask (xEventGroupWaitBits WIFI_CONNECTED_BIT false true 10000) ;;
  got <- wait_bits WIFI_CONNECTED_BIT evs ;;
  if got =? 0 then
    ESP_LOGE MainTask "WiFi Timeout - Check clé/UI input" []
  else ret tt.

(** *** ntp_init, bt_init, sdcard_init *)

Definition ntp_init : M unit :=
  ESP_LOGI MainTask "Init NTP" [] ;;
  emit MainTask esp_sntp_setoperatingmode ;;
  emit MainTask (esp_sntp_setservername 0 "pool.ntp.org") ;;
  emit MainTask esp_sntp_init.

(** The four statuses are what the four calls return; the source drops
    each of them. *)
Definition bt_init (ctrl_init ctrl_enable stack_init stack_enable : Z) : M unit :=
  ESP_LOGI MainTask "Init BT" [] ;;
  _ <- invoke MainTask esp_bt_controller_init ctrl_init ;;
  _ <- invoke MainTask esp_bt_controller_enable ctrl_enable ;;
  _ <- invoke MainTask esp_bluedroid_init stack_init ;;
  _ <- invoke MainTask esp_bluedroid_enable stack_enable ;;
  modify (set_bt_enabled true).

Definition sdcard_init (mount_status : Z) : M unit :=
  ESP_LOGI MainTask "Init SD" [] ;;
  r <- invoke MainTask (esp_vfs_fat_sdmmc_mount "/sdcard" true 5) mount_status ;;
  if r =? ESP_OK K then
    ESP_LOGI MainTask "SD OK - Ready for JSON logs" []
  else
    ESP_LOGE MainTask "SD Fail %d - Fallback to Flash" [r].

(** *** app_main *)

Definition do_xEventGroupCreate : M unit :=
  emit MainTask xEventGroupCreate ;;
  modify (set_event_bits 0).

(** One turn of the closing [while (1)] of [app_main]. *)
Definition main_loop_period : M unit :=
  emit MainTask (vTaskDelay 1000) ;;
  emit MainTask esp_task_wdt_reset.

Fixpoint main_loop (n : nat) : M unit :=
  match n with
  | O => ret tt
  | S k => main_loop_period ;; main_loop k
  end.

(** [app_main] up to, not including, its closing loop. *)
Definition app_main_boot (e : boot_env) : M unit :=
  ESP_LOGI MainTask "App Main" [] ;;
  r <- invoke MainTask nvs_flash_init (nvs_first_init e) ;;
  (if (r =? ESP_ERR_NVS_NO_FREE_PAGES K) || (r =? ESP_ERR_NVS_NEW_VERSION_FOUND K)
   then
     _ <- invoke MainTask nvs_flash_erase (nvs_erase_status e) ;;
     _ <- invoke MainTask nvs_flash_init (nvs_second_init e) ;;
     ret tt
   else ret tt) ;;
  do_xEventGroupCreate ;;
  lvgl_driver_init (lcd_init_ok e) ;;
  sdcard_init (sdmmc_mount_status e) ;;
  wifi_init (link_events e) ;;
  bt_init (bt_controller_init_status e) (bt_controller_enable_status e)
          (bluedroid_init_status e) (bluedroid_enable_status e) ;;
  ntp_init ;;
  emit MainTask lv_init ;;
  emit MainTask (esp_timer_create "lv_tick") ;;
  emit MainTask (esp_timer_start_periodic (LVGL_TICK_MS * 1000)) ;;
  create_ui ;;
  emit MainTask (xTaskCreate "lvgl_task" 8192 4) ;;
  emit MainTask (esp_task_wdt_init 5 true) ;;
  emit MainTask esp_task_wdt_add.

(** [app_main] with the first [n] turns of its closing loop. *)
Definition app_main (e : boot_env) (n : nat) : M unit :=
  app_main_boot e ;; main_loop n.

End Firmware.

(** ** Boot stages

    The stages of the bring-up, in the order of the spec.  A library call
    belongs to the stage of the subsystem it drives; log lines, the creation
    of the event group, [esp_restart] and the watchdog calls belong to no
    stage by themselves. *)

Inductive BootStage : Type :=
  ConfigStore | Display | Storage | Connectivity | Pairing | TimeSync | UIReady.

Definition stage_eqb (a b : BootStage) : bool :=
  match a, b with
  | ConfigStore, ConfigStore | Display, Display | Storage, Storage
  | Connectivity, Connectivity | Pairing, Pairing | TimeSync, TimeSync
  | UIReady, UIReady => true
  | _, _ => false
  end.

Definition stage_of (c : call) : option BootStage :=
  match c with
  | nvs_flash_init | nvs_flash_erase => Some ConfigStore
  | lcd_setConfig _ | lcd_init | lcd_setBrightness _ => Some Display
  | esp_vfs_fat_sdmmc_mount _ _ _ => Some Storage
  | esp_netif_init | esp_event_loop_create_default
  | esp_netif_create_default_wifi_sta | esp_wifi_init
  | esp_event_handler_instance_register _ _ | esp_wifi_set_mode
  | esp_wifi_set_config _ _ | esp_wifi_start | esp_wifi_connect
  | xEventGroupWaitBits _ _ _ _ => Some Connectivity
  | esp_bt_controller_init | esp_bt_controller_enable
  | esp_bluedroid_init | esp_bluedroid_enable => Some Pairing
  | esp_sntp_setoperatingmode | esp_sntp_setservername _ _
  | esp_sntp_init => Some TimeSync
  | lv_init | lv_widget _ | esp_timer_create _ | esp_timer_start_periodic _
  | xTaskCreate _ _ _ => Some UIReady
  | _ => None
  end.

(** Every call paired with the stage that is current when it is issued. *)
Fixpoint with_stage (cur : option BootStage) (cs : list call)
  : list (option BootStage * call) :=
  match cs with
  | [] => []
  | c :: rest =>
      let cur' := match stage_of c with Some s => Some s | None => cur end in
      (cur', c) :: with_stage cur' rest
  end.

(** The stages in the order they become current: a stage appears once for
    every time it is entered. *)
Fixpoint stages_from (cur : option BootStage) (cs : list call) : list BootStage :=
  match cs with
  | [] => []
  | c :: rest =>
      match stage_of c with
      | None => stages_from cur rest
      | Some s =>
          match cur with
          | Some s0 =>
              if stage_eqb s0 s then stages_from cur rest
              else s :: stages_from (Some s) rest
          | None => s :: stages_from (Some s) rest
          end
      end
  end.

Definition stages (cs : list call) : list BootStage := stages_from None cs.

Definition reaches (s : BootStage) (cs : list call) : bool :=
  existsb (stage_eqb s) (stages cs).

Definition stage_order : list BootStage :=
  [ConfigStore; Display; Storage; Connectivity; Pairing; TimeSync].

(** ** Predicates on calls *)

Definition count {A} (p : A -> bool) (l : list A) : nat := List.length (filter p l).

Definition is_restart (c : call) : bool :=
  match c with esp_restart => true | _ => false end.
Definition is_nvs_init (c : call) : bool :=
  match c with nvs_flash_init => true | _ => false end.
Definition is_nvs_erase (c : call) : bool :=
  match c with nvs_flash_erase => true | _ => false end.
Definition is_mount (c : call) : bool :=
  match c with esp_vfs_fat_sdmmc_mount _ _ _ => true | _ => false end.
Definition is_wait (c : call) : bool :=
  match c with xEventGroupWaitBits _ _ _ _ => true | _ => false end.
Definition is_delay (c : call) : bool :=
  match c with vTaskDelay _ => true | _ => false end.
Definition is_connect (c : call) : bool :=
  match c with esp_wifi_connect => true | _ => false end.
Definition is_wdt_reset (c : call) : bool :=
  match c with esp_task_wdt_reset => true | _ => false end.
Definition is_wdt_call (c : call) : bool :=
  match c with
  | esp_task_wdt_init _ _ | esp_task_wdt_add | esp_task_wdt_reset => true
  | _ => false
  end.

(** Calls into the UI engine (start, tick injection, processing, widget
    creation) and the flush it drives. *)
Definition is_ui_call (c : call) : bool :=
  match c with
  | lv_init | lv_tick_inc _ | lv_task_handler | lv_disp_flush_ready
  | lv_widget _ | lcd_pushColors _ => true
  | _ => false
  end.

(** Calls that start one of the two contexts that drive the UI engine. *)
Definition starts_ui_context (c : call) : bool :=
  match c with
  | esp_timer_create _ | esp_timer_start_periodic _ | xTaskCreate _ _ _ => true
  | _ => false
  end.

Definition is_log (lvl : log_level) (fmt : string) (c : call) : bool :=
  match c with
  | ESP_LOG l f _ =>
      match l, lvl with
      | LOGI, LOGI | LOGW, LOGW | LOGE, LOGE => String.eqb f fmt
      | _, _ => false
      end
  | _ => false
  end.

Definition is_corruption (K : sdk_constants) (r : Z) : bool :=
  (r =? ESP_ERR_NVS_NO_FREE_PAGES K) || (r =? ESP_ERR_NVS_NEW_VERSION_FOUND K).

(** A restart is asked for during the Display stage or not at all. *)
Definition restart_in_display (p : option BootStage * call) : bool :=
  if is_restart (snd p)
  then match fst p with Some Display => true | _ => false end
  else true.

Definition with_second_init (r : Z) (e : boot_env) : boot_env :=
  {| nvs_first_init := nvs_first_init e;
     nvs_erase_status := nvs_erase_status e;
     nvs_second_init := r;
     lcd_init_ok := lcd_init_ok e;
     sdmmc_mount_status := sdmmc_mount_status e;
     link_events := link_events e;
     bt_controller_init_status := bt_controller_init_status e;
     bt_controller_enable_status := bt_controller_enable_status e;
     bluedroid_init_status := bluedroid_init_status e;
     bluedroid_enable_status := bluedroid_enable_status e |}.

(** The readiness flags of the spec, read off the source: connectivity and
    pairing are the globals [wifi_connected] and [bt_enabled]; the source has
    no variable for the storage, whose only sign of readiness is the branch
    of [sdcard_init] that logs success. *)
Definition connectivityReady (g : globals) : bool := wifi_connected g.
Definition pairingReady (g : globals) : bool := bt_enabled g.
Definition storageReady (main_calls : list call) : bool :=
  existsb (is_log LOGI "SD OK - Ready for JSON logs") main_calls.

(** ** The running system

    After [app_main] has armed the watchdog, four contexts run: the closing
    loop of [app_main], the loop of [lvgl_task], the periodic timer and the
    event loop.  A schedule lists, in order, which of them completes its
    next turn; it has no clock and no priorities.  A render turn lists the
    regions flushed during its [lv_task_handler]; the log line at the start
    of [lvgl_task] and the refresh of the status bar that the UI engine
    runs from inside [lv_task_handler] are [lvgl_task_start] and
    [update_status_bar], which are not part of a schedule. *)

Inductive activity : Type :=
  | SupervisorTurn
  | RenderTurn (areas : list lv_area_t)
  | TickFire
  | LinkEvent (event_base : esp_event_base_t) (event_id : Z).

Definition perform (K : sdk_constants) (a : activity) : M unit :=
  match a with
  | SupervisorTurn => main_loop_period
  | RenderTurn areas => lvgl_task_period areas
  | TickFire => lv_tick_handler
  | LinkEvent b i => deliver K (b, i)
  end.

Fixpoint run (K : sdk_constants) (sched : list activity) : M unit :=
  match sched with
  | [] => ret tt
  | a :: rest => perform K a ;; run K rest
  end.

Definition is_supervisor_turn (a : activity) : bool :=
  match a with SupervisorTurn => true | _ => false end.
Definition is_render_turn (a : activity) : bool :=
  match a with RenderTurn _ => true | _ => false end.

(** The watchdog as [app_main] arms it: timeout in seconds, and the main
    task, the only one that subscribes with [esp_task_wdt_add(NULL)], as the
    one watched task. *)
Definition WDT_TIMEOUT_S : Z := 5.
Definition SUPERVISOR_PERIOD_MS : Z := 1000.

(** ** Vocabulary of the statements *)

(** The trace in which task [ctx] issues the calls [cs]. *)
Definition on_task (ctx : task) (cs : list call) : trace := map (pair ctx) cs.

(** The globals keep this link between the flag and the event group: the
    flag is raised only together with the bit. *)
Definition flag_implies_bit (g : globals) : Prop :=
  wifi_connected g = true ->
  Z.land (wifi_event_group g) WIFI_CONNECTED_BIT = WIFI_CONNECTED_BIT.

(** The handler runs on the event loop and calls nothing but
    [esp_wifi_connect], [xEventGroupSetBits] and the logger. *)
Definition handler_call (c : call) : bool :=
  match c with
  | esp_wifi_connect | xEventGroupSetBits _ | ESP_LOG _ _ _ => true
  | _ => false
  end.

(** An entry of the trace that the handler can have written. *)
Definition event_task_entry (x : task * call) : Prop :=
  fst x = EventTask /\ handler_call (snd x) = true.

(** What every run of the handler has in common, whatever the event. *)
Record handler_frame (g : globals) (r : result unit) : Prop := {
  hf_done : returned r = true;
  hf_event_task : Forall event_task_entry (trace_of r);
  hf_bt : bt_enabled (globals_of r) = bt_enabled g;
  hf_link : flag_implies_bit g -> flag_implies_bit (globals_of r)
}.

(** *** The calls of a boot

    The calls of the main task during [app_main_boot], stage by stage, as a
    function of what the libraries answer. *)

Section BootCalls.

Variable K : sdk_constants.

Definition config_store_calls (e : boot_env) : list call :=
  nvs_flash_init ::
  (if is_corruption K (nvs_first_init e)
   then [nvs_flash_erase; nvs_flash_init] else []).

Definition display_calls (ok : bool) : list call :=
  [ESP_LOG LOGI "Init LovyanGFX QSPI..." []; lcd_setConfig lgfx_cfg; lcd_init]
  ++ (if ok
      then [lcd_setBrightness 128; ESP_LOG LOGI "QSPI OK - Freq %d MHz" [80]]
      else [ESP_LOG LOGE "QSPI Init Fail - Pins/EMI? Retry shield." [];
            esp_restart]).

Definition storage_calls (e : boot_env) : list call :=
  [ESP_LOG LOGI "Init SD" []; esp_vfs_fat_sdmmc_mount "/sdcard" true 5;
   if sdmmc_mount_status e =? ESP_OK K
   then ESP_LOG LOGI "SD OK - Ready for JSON logs" []
   else ESP_LOG LOGE "SD Fail %d - Fallback to Flash" [sdmmc_mount_status e]].

Definition connectivity_calls : list call :=
  [ESP_LOG LOGI "Init WiFi" []; esp_netif_init; esp_event_loop_create_default;
   esp_netif_create_default_wifi_sta; esp_wifi_init;
   esp_event_handler_instance_register WIFI_EVENT ESP_EVENT_ANY_ID;
   esp_event_handler_instance_register IP_EVENT
     (event_id_is (IP_EVENT_STA_GOT_IP K));
   esp_wifi_set_mode; esp_wifi_set_config WIFI_SSID WIFI_PASS; esp_wifi_start;
   xEventGroupWaitBits WIFI_CONNECTED_BIT false true 10000].

Definition timeout_calls (got : Z) : list call :=
  if got =? 0
  then [ESP_LOG LOGE "WiFi Timeout - Check clé/UI input" []] else [].

Definition pairing_calls : list call :=
  [ESP_LOG LOGI "Init BT" []; esp_bt_controller_init; esp_bt_controller_enable;
   esp_bluedroid_init; esp_bluedroid_enable].

Definition timesync_calls : list call :=
  [ESP_LOG LOGI "Init NTP" []; esp_sntp_setoperatingmode;
   esp_sntp_setservername 0 "pool.ntp.org"; esp_sntp_init].

Definition ui_calls : list call :=
  [lv_init; esp_timer_create "lv_tick"; esp_timer_start_periodic 16000;
   ESP_LOG LOGI "Create UI" []]
  ++ create_ui_calls ++ [xTaskCreate "lvgl_task" 8192 4].

Definition watchdog_calls : list call :=
  [esp_task_wdt_init WDT_TIMEOUT_S true; esp_task_wdt_add].

Definition calls_to_wait (e : boot_env) : list call :=
  ESP_LOG LOGI "App Main" [] :: config_store_calls e
  ++ [xEventGroupCreate] ++ display_calls true ++ storage_calls e
  ++ connectivity_calls.

Definition calls_after_wait (got : Z) : list call :=
  timeout_calls got ++ pairing_calls ++ timesync_calls ++ ui_calls.

Definition calls_to_restart (e : boot_env) : list call :=
  ESP_LOG LOGI "App Main" [] :: config_store_calls e
  ++ [xEventGroupCreate] ++ display_calls false.

(** The value the wait of [wifi_init] hands back in environment [e]. *)
Definition wait_outcome (e : boot_env) : result Z :=
  wait_bits K WIFI_CONNECTED_BIT (link_events e) initial_globals.

Definition wait_expired (e : boot_env) : bool :=
  match wait_outcome e with
  | Done got _ _ => got =? 0
  | Rebooted _ _ => false
  end.

Definition boot (e : boot_env) : result unit := app_main_boot K e initial_globals.

Definition main_calls (e : boot_env) : list call :=
  calls_of MainTask (trace_of (boot e)).

Definition all_calls (e : boot_env) : list call := map snd (trace_of (boot e)).

(** [n] Disconnected events in a row, after the boot. *)
Definition disconnects (n : nat) : list activity :=
  repeat (LinkEvent WIFI_EVENT (WIFI_EVENT_STA_DISCONNECTED K)) n.

End BootCalls.

(** What the handler calls for [n] Disconnected events. *)
Definition retry_calls (n : nat) : list call :=
  List.concat (repeat [esp_wifi_connect; ESP_LOG LOGW "WiFi Disconnect - Retry" []] n).

(** What the main task calls during [n] turns of its closing loop. *)
Definition supervisor_calls (n : nat) : list call :=
  List.concat (repeat [vTaskDelay SUPERVISOR_PERIOD_MS; esp_task_wdt_reset] n).

(** An entry of the trace that is not a watchdog reset by another task
    than the main one. *)
Definition reset_by_main (x : task * call) : Prop :=
  is_wdt_reset (snd x) = true -> fst x = MainTask.

(** What the flush callback calls for the regions [areas]. *)
Definition flush_calls (areas : list lv_area_t) : list call :=
  flat_map (fun a => [lcd_pushColors ((x2 a - x1 a + 1) * (y2 a - y1 a + 1));
                      lv_disp_flush_ready]) areas.

(** *** Environments and schedules used as examples *)

(** The first init reports no free pages, and so does the init after the
    erase; everything else succeeds. *)
Definition env_store_bad_twice : boot_env :=
  {| nvs_first_init := ESP_ERR_NVS_NO_FREE_PAGES idf;
     nvs_erase_status := ESP_OK idf;
     nvs_second_init := ESP_ERR_NVS_NO_FREE_PAGES idf;
     lcd_init_ok := true;
     sdmmc_mount_status := ESP_OK idf;
     link_events := [(WIFI_EVENT, WIFI_EVENT_STA_START idf);
                     (IP_EVENT, IP_EVENT_STA_GOT_IP idf)];
     bt_controller_init_status := ESP_OK idf;
     bt_controller_enable_status := ESP_OK idf;
     bluedroid_init_status := ESP_OK idf;
     bluedroid_enable_status := ESP_OK idf |}.

(** The display does not come up. *)
Definition env_display_dead : boot_env :=
  {| nvs_first_init := ESP_OK idf;
     nvs_erase_status := ESP_OK idf;
     nvs_second_init := ESP_OK idf;
     lcd_init_ok := false;
     sdmmc_mount_status := ESP_OK idf;
     link_events := [(WIFI_EVENT, WIFI_EVENT_STA_START idf);
                     (IP_EVENT, IP_EVENT_STA_GOT_IP idf)];
     bt_controller_init_status := ESP_OK idf;
     bt_controller_enable_status := ESP_OK idf;
     bluedroid_init_status := ESP_OK idf;
     bluedroid_enable_status := ESP_OK idf |}.

(** Every call of [bt_init] fails with ESP_FAIL. *)
Definition env_radio_dead : boot_env :=
  {| nvs_first_init := ESP_OK idf;
     nvs_erase_status := ESP_OK idf;
     nvs_second_init := ESP_OK idf;
     lcd_init_ok := true;
     sdmmc_mount_status := ESP_OK idf;
     link_events := [(WIFI_EVENT, WIFI_EVENT_STA_START idf);
                     (IP_EVENT, IP_EVENT_STA_GOT_IP idf)];
     bt_controller_init_status := -1;
     bt_controller_enable_status := -1;
     bluedroid_init_status := -1;
     bluedroid_enable_status := -1 |}.

(** The mount times out and no address is obtained before the wait of
    [wifi_init] runs out. *)
Definition env_card_missing : boot_env :=
  {| nvs_first_init := ESP_OK idf;
     nvs_erase_status := ESP_OK idf;
     nvs_second_init := ESP_OK idf;
     lcd_init_ok := true;
     sdmmc_mount_status := 0x107;
     link_events := [(WIFI_EVENT, WIFI_EVENT_STA_START idf);
                     (WIFI_EVENT, WIFI_EVENT_STA_DISCONNECTED idf)];
     bt_controller_init_status := ESP_OK idf;
     bt_controller_enable_status := ESP_OK idf;
     bluedroid_init_status := ESP_OK idf;
     bluedroid_enable_status := ESP_OK idf |}.

(** The radio starts, the link drops twice and no address is obtained
    before the wait of [wifi_init] runs out. *)
Definition env_no_access_point : boot_env :=
  {| nvs_first_init := ESP_OK idf;
     nvs_erase_status := ESP_OK idf;
     nvs_second_init := ESP_OK idf;
     lcd_init_ok := true;
     sdmmc_mount_status := ESP_OK idf;
     link_events := [(WIFI_EVENT, WIFI_EVENT_STA_START idf);
                     (WIFI_EVENT, WIFI_EVENT_STA_DISCONNECTED idf);
                     (WIFI_EVENT, WIFI_EVENT_STA_DISCONNECTED idf)];
     bt_controller_init_status := ESP_OK idf;
     bt_controller_enable_status := ESP_OK idf;
     bluedroid_init_status := ESP_OK idf;
     bluedroid_enable_status := ESP_OK idf |}.

(** Case analysis on the three tests of the boot that the main task's calls
    depend on. *)
Ltac boot_cases K e got :=
  unfold calls_to_wait, calls_to_restart, calls_after_wait, config_store_calls,
    storage_calls, timeout_calls, display_calls, connectivity_calls,
    pairing_calls, timesync_calls, ui_calls, watchdog_calls, create_ui_calls;
  destruct (is_corruption K (nvs_first_init e));
  try destruct (sdmmc_mount_status e =? ESP_OK K);
  try destruct (got =? 0).

(** ** The status bar and further vocabulary *)

(** The three labels of the status bar, globals of the file. *)
Inductive status_label : Type := time_label | wifi_icon | bt_icon.

(** [update_status_bar], run by the UI engine's timer inside
    [lv_task_handler]: three [lv_label_set_text] calls.  [buf] is the text
    [strftime] has written; the result lists what is written to which
    label. *)
Definition update_status_bar (buf : string)
  : M (list (status_label * string)) :=
  emit RenderTask (lv_widget "lv_label_set_text") ;;
  g <- (fun g => Done g g []) ;;
  emit RenderTask (lv_widget "lv_label_set_text") ;;
  emit RenderTask (lv_widget "lv_label_set_text") ;;
  ret [(time_label, buf);
       (wifi_icon, (if wifi_connected g then "WiFi ON" else "WiFi OFF")%string);
       (bt_icon, (if bt_enabled g then "BT ON" else "BT OFF")%string)].

(** The text a label shows after the writes [ws], [None] when none of them
    is for it. *)
Definition label_eqb (a b : status_label) : bool :=
  match a, b with
  | time_label, time_label | wifi_icon, wifi_icon | bt_icon, bt_icon => true
  | _, _ => false
  end.

Fixpoint shown (l : status_label) (ws : list (status_label * string))
  : option string :=
  match ws with
  | [] => None
  | (l', text) :: rest =>
      match shown l rest with
      | Some later => Some later
      | None => if label_eqb l l' then Some text else None
      end
  end.

(** What the status bar shows when it is refreshed with the globals [g]. *)
Definition status_bar (buf : string) (g : globals)
  : list (status_label * string) :=
  match update_status_bar buf g with
  | Done ws _ _ => ws
  | Rebooted _ _ => []
  end.

(** A region that lies inside the panel. *)
Definition within_panel (a : lv_area_t) : Prop :=
  0 <= x1 a <= x2 a /\ x2 a < SCREEN_WIDTH /\
  0 <= y1 a <= y2 a /\ y2 a < SCREEN_HEIGHT.

Definition is_push (c : call) : bool :=
  match c with lcd_pushColors _ => true | _ => false end.
Definition is_flush_ready (c : call) : bool :=
  match c with lv_disp_flush_ready => true | _ => false end.
Definition is_task_handler (c : call) : bool :=
  match c with lv_task_handler => true | _ => false end.
Definition is_lv_init (c : call) : bool :=
  match c with lv_init => true | _ => false end.
Definition is_lcd_init (c : call) : bool :=
  match c with lcd_init => true | _ => false end.
Definition is_brightness (c : call) : bool :=
  match c with lcd_setBrightness _ => true | _ => false end.
Definition is_group_create (c : call) : bool :=
  match c with xEventGroupCreate => true | _ => false end.
Definition uses_event_group (c : call) : bool :=
  match c with
  | xEventGroupWaitBits _ _ _ _ | xEventGroupSetBits _ => true
  | _ => false
  end.
Definition is_register (c : call) : bool :=
  match c with esp_event_handler_instance_register _ _ => true | _ => false end.
Definition is_wifi_start (c : call) : bool :=
  match c with esp_wifi_start => true | _ => false end.
Definition is_wdt_add (c : call) : bool :=
  match c with esp_task_wdt_add => true | _ => false end.
Definition is_sntp_init (c : call) : bool :=
  match c with esp_sntp_init => true | _ => false end.

(** Calls that need the UI engine to be initialised. *)
Definition needs_lv_init (c : call) : bool :=
  match c with
  | lv_tick_inc _ | lv_task_handler | lv_disp_flush_ready | lv_widget _
  | esp_timer_start_periodic _ | xTaskCreate _ _ _ => true
  | _ => false
  end.

(** [acks_follow_pushes cs]: in [cs] every push is followed at once by an
    acknowledgement, and there is no acknowledgement without its push. *)
Fixpoint acks_follow_pushes (cs : list call) : bool :=
  match cs with
  | [] => true
  | lcd_pushColors _ :: rest =>
      match rest with
      | lv_disp_flush_ready :: rest' => acks_follow_pushes rest'
      | _ => false
      end
  | lv_disp_flush_ready :: _ => false
  | _ :: rest => acks_follow_pushes rest
  end.

(** An entry of the trace that is neither a push nor an acknowledgement. *)
Definition no_flush_entry (x : task * call) : Prop :=
  is_push (snd x) = false /\ is_flush_ready (snd x) = false.

(** [guarded_by p q cs]: in [cs] no call that satisfies [q] comes before the
    first call that satisfies [p]. *)
Fixpoint guarded_by (p q : call -> bool) (cs : list call) : bool :=
  match cs with
  | [] => true
  | c :: rest => if p c then true else negb (q c) && guarded_by p q rest
  end.

(** The link events of a schedule, and the regions its render turns flush. *)
Definition events_of (sched : list activity) : list (esp_event_base_t * Z) :=
  flat_map (fun a => match a with LinkEvent b i => [(b, i)] | _ => [] end) sched.

Definition flushed_areas (sched : list activity) : list lv_area_t :=
  flat_map (fun a => match a with RenderTurn areas => areas | _ => [] end) sched.

(** What the render task calls during a schedule. *)
Definition render_calls (sched : list activity) : list call :=
  flat_map (fun a => match a with
                     | RenderTurn areas =>
                         lv_task_handler :: flush_calls areas
                         ++ [vTaskDelay LVGL_TICK_MS]
                     | _ => []
                     end) sched.

Section EventVocabulary.

Variable K : sdk_constants.

(** Events that reach the handler and make it call [esp_wifi_connect]. *)
Definition asks_connect (ev : esp_event_base_t * Z) : bool :=
  registered K (fst ev) (snd ev)
  && ((snd ev =? WIFI_EVENT_STA_START K)
      || (snd ev =? WIFI_EVENT_STA_DISCONNECTED K)).

(** Events that reach the handler and match one of its three branches. *)
Definition handled (ev : esp_event_base_t * Z) : bool :=
  registered K (fst ev) (snd ev)
  && ((snd ev =? WIFI_EVENT_STA_START K)
      || (snd ev =? WIFI_EVENT_STA_DISCONNECTED K)
      || (snd ev =? IP_EVENT_STA_GOT_IP K)).

Definition carries_got_ip (ev : esp_event_base_t * Z) : bool :=
  snd ev =? IP_EVENT_STA_GOT_IP K.

(** Two environments that agree on the four answers [app_main] looks at. *)
Definition same_consulted (e e' : boot_env) : Prop :=
  nvs_first_init e = nvs_first_init e' /\
  lcd_init_ok e = lcd_init_ok e' /\
  sdmmc_mount_status e = sdmmc_mount_status e' /\
  link_events e = link_events e'.

End EventVocabulary.

(** The first init fails with a code that is no corruption signal. *)
Definition env_store_other_error : boot_env :=
  {| nvs_first_init := -1;
     nvs_erase_status := ESP_OK idf;
     nvs_second_init := ESP_OK idf;
     lcd_init_ok := true;
     sdmmc_mount_status := ESP_OK idf;
     link_events := [(WIFI_EVENT, WIFI_EVENT_STA_START idf);
                     (IP_EVENT, IP_EVENT_STA_GOT_IP idf)];
     bt_controller_init_status := ESP_OK idf;
     bt_controller_enable_status := ESP_OK idf;
     bluedroid_init_status := ESP_OK idf;
     bluedroid_enable_status := ESP_OK idf |}.

(** The globals once an address has been obtained. *)
Definition globals_connected : globals :=
  {| wifi_connected := true; bt_enabled := true;
     wifi_event_group := WIFI_CONNECTED_BIT |}.

(** Case analysis on the registration test and the three tests of the
    handler. *)
Ltac handler_cases K b i :=
  unfold deliver, wifi_event_handler; cbn [fst snd];
  destruct (registered K b i) eqn:?;
  [ destruct (i =? WIFI_EVENT_STA_START K) eqn:?;
    [ | destruct (i =? WIFI_EVENT_STA_DISCONNECTED K) eqn:?;
        [ | destruct (i =? IP_EVENT_STA_GOT_IP K) eqn:? ] ]
  | ].

(** * Properties *)

(** ** Traces and counting *)

Lemma calls_of_app (ctx : task) (t u : trace) :
  calls_of ctx (t ++ u) = calls_of ctx t ++ calls_of ctx u.
Proof. unfold calls_of. now rewrite filter_app, map_app. Qed.

Lemma calls_of_on_task_same (ctx : task) (cs : list call) :
  calls_of ctx (on_task ctx cs) = cs.
Proof.
  induction cs as [|c cs IH]; [reflexivity|].
  unfold calls_of, on_task in *. cbn [map filter fst].
  replace (task_eqb ctx ctx) with true by now destruct ctx.
  cbn [map snd]. now rewrite IH.
Qed.

Lemma calls_of_on_task_other (ctx other : task) (cs : list call) :
  task_eqb other ctx = false -> calls_of ctx (on_task other cs) = [].
Proof.
  intros Hne. induction cs as [|c cs IH]; [reflexivity|].
  unfold calls_of, on_task in *. cbn [map filter fst]. now rewrite Hne.
Qed.

Lemma count_app {A} (p : A -> bool) (l m : list A) :
  count p (l ++ m) = (count p l + count p m)%nat.
Proof. unfold count. now rewrite filter_app, length_app. Qed.

Lemma count_zero_Forall {A} (p : A -> bool) (l : list A) :
  Forall (fun x => p x = false) l -> count p l = 0%nat.
Proof.
  unfold count. induction 1 as [|x l Hx _ IH]; [reflexivity|].
  cbn [filter]. now rewrite Hx.
Qed.

Lemma map_snd_on_task (ctx : task) (cs : list call) :
  map snd (on_task ctx cs) = cs.
Proof.
  unfold on_task. rewrite map_map. cbn [snd]. apply map_id.
Qed.

(** ** The event handler *)

Section Handler.

Variable K : sdk_constants.

Lemma land_lor_bit (b : Z) :
  Z.land (Z.lor b WIFI_CONNECTED_BIT) WIFI_CONNECTED_BIT = WIFI_CONNECTED_BIT.
Proof.
  apply Z.bits_inj'. intros n _.
  rewrite Z.land_spec, Z.lor_spec.
  now destruct (Z.testbit b n), (Z.testbit WIFI_CONNECTED_BIT n).
Qed.

Lemma handler_started (b : esp_event_base_t) (g : globals) :
  wifi_event_handler K b (WIFI_EVENT_STA_START K) g
  = Done tt g [(EventTask, esp_wifi_connect)].
Proof. unfold wifi_event_handler. now rewrite Z.eqb_refl. Qed.

Lemma handler_disconnected (b : esp_event_base_t) (g : globals) :
  WIFI_EVENT_STA_START K <> WIFI_EVENT_STA_DISCONNECTED K ->
  wifi_event_handler K b (WIFI_EVENT_STA_DISCONNECTED K) g
  = Done tt (set_wifi_connected false g)
      [(EventTask, esp_wifi_connect);
       (EventTask, ESP_LOG LOGW "WiFi Disconnect - Retry" [])].
Proof.
  intros Hne. unfold wifi_event_handler.
  destruct (Z.eqb_spec (WIFI_EVENT_STA_DISCONNECTED K) (WIFI_EVENT_STA_START K))
    as [E|_]; [congruence|].
  now rewrite Z.eqb_refl.
Qed.

Lemma handler_got_ip (b : esp_event_base_t) (g : globals) :
  IP_EVENT_STA_GOT_IP K <> WIFI_EVENT_STA_START K ->
  IP_EVENT_STA_GOT_IP K <> WIFI_EVENT_STA_DISCONNECTED K ->
  wifi_event_handler K b (IP_EVENT_STA_GOT_IP K) g
  = Done tt
      {| wifi_connected := true;
         bt_enabled := bt_enabled g;
         wifi_event_group := Z.lor (wifi_event_group g) WIFI_CONNECTED_BIT |}
      [(EventTask, xEventGroupSetBits WIFI_CONNECTED_BIT);
       (EventTask, ESP_LOG LOGI "WiFi IP OK" [])].
Proof.
  intros H1 H2. unfold wifi_event_handler.
  destruct (Z.eqb_spec (IP_EVENT_STA_GOT_IP K) (WIFI_EVENT_STA_START K))
    as [E|_]; [congruence|].
  destruct (Z.eqb_spec (IP_EVENT_STA_GOT_IP K) (WIFI_EVENT_STA_DISCONNECTED K))
    as [E|_]; [congruence|].
  now rewrite Z.eqb_refl.
Qed.

Lemma handler_frame_holds (b : esp_event_base_t) (i : Z) (g : globals) :
  handler_frame g (wifi_event_handler K b i g).
Proof.
  unfold wifi_event_handler.
  destruct (i =? WIFI_EVENT_STA_START K);
    [|destruct (i =? WIFI_EVENT_STA_DISCONNECTED K);
      [|destruct (i =? IP_EVENT_STA_GOT_IP K)]];
    split; cbn; auto; try (repeat constructor; fail).
  - intros _ F. discriminate F.
  - intros _ _. apply land_lor_bit.
Qed.

Lemma deliver_frame (ev : esp_event_base_t * Z) (g : globals) :
  handler_frame g (deliver K ev g).
Proof.
  unfold deliver. destruct (registered K (fst ev) (snd ev)).
  - apply handler_frame_holds.
  - split; cbn; auto.
Qed.

(** The wait of [wifi_init] always comes back, with the value of the group;
    meanwhile only the event loop has run. *)
Lemma wait_bits_spec (evs : list (esp_event_base_t * Z)) (g : globals) :
  exists got g' t,
    wait_bits K WIFI_CONNECTED_BIT evs g = Done got g' t /\
    got = wifi_event_group g' /\
    Forall event_task_entry t /\
    bt_enabled g' = bt_enabled g /\
    (flag_implies_bit g -> flag_implies_bit g') /\
    (Z.land (wifi_event_group g) WIFI_CONNECTED_BIT <> WIFI_CONNECTED_BIT ->
     evs = [] -> g' = g).
Proof.
  revert g. induction evs as [|ev evs IH]; intros g; cbn [wait_bits].
  - destruct (_ =? _); exists (wifi_event_group g), g, []; repeat split; auto.
  - destruct (Z.land (wifi_event_group g) WIFI_CONNECTED_BIT =? WIFI_CONNECTED_BIT).
    + exists (wifi_event_group g), g, []. repeat split; auto.
    + unfold bind. destruct (deliver_frame ev g) as [Hd Hev Hbt Hlink].
      destruct (deliver K ev g) as [[] g1 t1|]; [|discriminate Hd].
      cbn in Hev, Hbt, Hlink.
      destruct (IH g1) as (got & g' & t & E & Hgot & Ht & Hbt' & Hlink' & _).
      rewrite E. exists got, g', (t1 ++ t). repeat split; auto.
      * apply Forall_app; auto.
      * congruence.
      * discriminate.
Qed.

Lemma event_task_not_main (t : trace) :
  Forall event_task_entry t -> calls_of MainTask t = [].
Proof.
  unfold calls_of. induction 1 as [|[c x] t [Hx _] _ IH]; [reflexivity|].
  cbn in Hx. subst c. cbn. exact IH.
Qed.

Lemma event_task_count_zero (p : call -> bool) (t : trace) :
  (forall c, handler_call c = true -> p c = false) ->
  Forall event_task_entry t -> count p (map snd t) = 0%nat.
Proof.
  intros Hp Ht. apply count_zero_Forall, Forall_map.
  eapply Forall_impl; [|exact Ht]. intros x [_ Hx]. now apply Hp.
Qed.

End Handler.

(** ** The shape of a boot

    [app_main_boot] issues the calls listed in [calls_to_wait] and
    [calls_after_wait], or those of [calls_to_restart]. *)

Section BootShape.

Variable K : sdk_constants.

Lemma emit_all_trace (ctx : task) (cs : list call) (g : globals) :
  emit_all ctx cs g = Done tt g (on_task ctx cs).
Proof.
  induction cs as [|c cs IH]; [reflexivity|].
  cbn [emit_all]. unfold bind, emit, invoke. rewrite IH. reflexivity.
Qed.

Lemma boot_display_failed (e : boot_env) :
  lcd_init_ok e = false ->
  app_main_boot K e initial_globals
  = Rebooted initial_globals (on_task MainTask (calls_to_restart K e)).
Proof.
  intros Hlcd. unfold calls_to_restart, config_store_calls, is_corruption.
  cbv [app_main_boot lvgl_driver_init bind invoke ESP_LOGI ESP_LOGE emit
       do_xEventGroupCreate modify do_restart ret].
  rewrite Hlcd.
  destruct ((nvs_first_init e =? ESP_ERR_NVS_NO_FREE_PAGES K)
            || (nvs_first_init e =? ESP_ERR_NVS_NEW_VERSION_FOUND K));
    reflexivity.
Qed.

Lemma boot_display_ok (e : boot_env) :
  lcd_init_ok e = true ->
  exists got gw tw,
    wait_outcome K e = Done got gw tw /\
    got = wifi_event_group gw /\
    Forall event_task_entry tw /\
    flag_implies_bit gw /\
    app_main_boot K e initial_globals
    = Done tt (set_bt_enabled true gw)
        (on_task MainTask (calls_to_wait K e) ++ tw
         ++ on_task MainTask (calls_after_wait got ++ watchdog_calls)).
Proof.
  intros Hlcd.
  destruct (wait_bits_spec K (link_events e) initial_globals)
    as (got & gw & tw & E & Hgot & Htw & _ & Hlink & _).
  fold (wait_outcome K e) in E.
  exists got, gw, tw. repeat split; auto.
  - apply Hlink. intros F; discriminate F.
  - unfold calls_to_wait, calls_after_wait, config_store_calls,
      storage_calls, timeout_calls, is_corruption.
    cbv [app_main_boot lvgl_driver_init sdcard_init wifi_init bt_init ntp_init
         create_ui bind invoke ESP_LOGI ESP_LOGE emit do_xEventGroupCreate
         modify do_restart ret].
    rewrite Hlcd. cbv [negb]. unfold wait_outcome in E.
    destruct ((nvs_first_init e =? ESP_ERR_NVS_NO_FREE_PAGES K)
              || (nvs_first_init e =? ESP_ERR_NVS_NEW_VERSION_FOUND K));
      destruct (sdmmc_mount_status e =? ESP_OK K);
      cbv beta iota;
      change (set_event_bits 0 initial_globals) with initial_globals;
      rewrite E; cbv beta iota;
      destruct (got =? 0); cbv beta iota;
      rewrite emit_all_trace;
      cbn [app on_task map]; rewrite <- ?app_assoc; reflexivity.
Qed.

End BootShape.

(** ** The boot sequencer *)

Section Boot.

Variable K : sdk_constants.

Lemma main_calls_display_failed (e : boot_env) :
  lcd_init_ok e = false -> main_calls K e = calls_to_restart K e.
Proof.
  intros H. unfold main_calls, boot. rewrite (boot_display_failed K e H).
  cbn [trace_of]. apply calls_of_on_task_same.
Qed.

Lemma all_calls_display_failed (e : boot_env) :
  lcd_init_ok e = false -> all_calls K e = calls_to_restart K e.
Proof.
  intros H. unfold all_calls, boot. rewrite (boot_display_failed K e H).
  cbn [trace_of]. apply map_snd_on_task.
Qed.

Lemma main_calls_display_ok (e : boot_env) :
  lcd_init_ok e = true ->
  exists got gw tw,
    wait_outcome K e = Done got gw tw /\
    got = wifi_event_group gw /\
    Forall event_task_entry tw /\
    flag_implies_bit gw /\
    boot K e = Done tt (set_bt_enabled true gw)
               (on_task MainTask (calls_to_wait K e) ++ tw
                ++ on_task MainTask (calls_after_wait got ++ watchdog_calls)) /\
    main_calls K e = calls_to_wait K e ++ calls_after_wait got ++ watchdog_calls.
Proof.
  intros H. destruct (boot_display_ok K e H) as (got & gw & tw & E & Hg & Htw & Hl & B).
  exists got, gw, tw. repeat split; auto.
  unfold main_calls, boot. rewrite B. cbn [trace_of].
  rewrite !calls_of_app, !calls_of_on_task_same.
  now rewrite (event_task_not_main tw Htw).
Qed.

End Boot.

Lemma boot_stages_summary (K : sdk_constants) (e : boot_env) :
  stages (main_calls K e)
  = (if lcd_init_ok e then stage_order ++ [UIReady] else [ConfigStore; Display])
  /\ forallb restart_in_display (with_stage None (main_calls K e)) = true
  /\ count is_restart (all_calls K e) = (if lcd_init_ok e then 0 else 1)%nat.
Proof.
  destruct (lcd_init_ok e) eqn:Hlcd.
  - destruct (main_calls_display_ok K e Hlcd)
      as (got & gw & tw & E & Hgot & Htw & Hl & B & Hm).
    rewrite Hm. repeat split.
    + boot_cases K e got; reflexivity.
    + boot_cases K e got; reflexivity.
    + unfold all_calls. fold (boot K e). rewrite B. cbn [trace_of].
      rewrite !map_app, !map_snd_on_task, !count_app.
      rewrite (event_task_count_zero is_restart tw) by
        (auto; intros []; cbn; congruence).
      boot_cases K e got; reflexivity.
  - rewrite (main_calls_display_failed K e Hlcd),
      (all_calls_display_failed K e Hlcd).
    repeat split; boot_cases K e 0; reflexivity.
Qed.

(** C6: the stages are entered in the fixed order ConfigStore, Display,
    Storage, Connectivity, Pairing, TimeSync (then UIReady), each of them
    once, up to Display when the display fails; and a restart is asked for
    only while Display is the current stage, exactly when the display
    init fails. *)
Theorem C6_stages_in_fixed_order (K : sdk_constants) (e : boot_env) :
  stages (main_calls K e)
  = (if lcd_init_ok e then stage_order ++ [UIReady] else [ConfigStore; Display])
  /\ forallb restart_in_display (with_stage None (main_calls K e)) = true
  /\ count is_restart (all_calls K e) = (if lcd_init_ok e then 0 else 1)%nat.
Proof. exact (boot_stages_summary K e). Qed.

(** C1, as stated, fails: with a first init that reports no free pages and a
    second init that fails again, the boot is not aborted; it returns and
    every later stage runs. *)
Lemma C1_second_failure_not_fatal :
  is_corruption idf (nvs_first_init env_store_bad_twice) = true /\
  nvs_second_init env_store_bad_twice <> ESP_OK idf /\
  returned (boot idf env_store_bad_twice) = true /\
  stages (main_calls idf env_store_bad_twice)
  = [ConfigStore; Display; Storage; Connectivity; Pairing; TimeSync; UIReady].
Proof. repeat split; try reflexivity. discriminate. Qed.

(** C1, amended: when the first init reports a corruption signal, the store
    is erased once and initialised once more, with no loop; the result of
    that second init is not looked at, and the boot goes on to create the
    event group and to enter the Display stage whatever it is. *)
Theorem C1_one_erase_reinit_cycle (K : sdk_constants) (e : boot_env) :
  is_corruption K (nvs_first_init e) = true ->
  count is_nvs_erase (main_calls K e) = 1%nat /\
  count is_nvs_init (main_calls K e) = 2%nat /\
  (exists rest,
     main_calls K e
     = [ESP_LOG LOGI "App Main" []; nvs_flash_init; nvs_flash_erase;
        nvs_flash_init; xEventGroupCreate;
        ESP_LOG LOGI "Init LovyanGFX QSPI..." []; lcd_setConfig lgfx_cfg;
        lcd_init] ++ rest) /\
  (forall r, boot K (with_second_init r e) = boot K e).
Proof.
  intros Hc. split; [|split; [|split]].
  - destruct (lcd_init_ok e) eqn:Hlcd.
    + destruct (main_calls_display_ok K e Hlcd)
        as (got & gw & tw & _ & _ & _ & _ & _ & Hm).
      rewrite Hm. revert Hc. boot_cases K e got; intros Hc;
        try discriminate Hc; reflexivity.
    + rewrite (main_calls_display_failed K e Hlcd). revert Hc.
      boot_cases K e 0; intros Hc; try discriminate Hc; reflexivity.
  - destruct (lcd_init_ok e) eqn:Hlcd.
    + destruct (main_calls_display_ok K e Hlcd)
        as (got & gw & tw & _ & _ & _ & _ & _ & Hm).
      rewrite Hm. revert Hc. boot_cases K e got; intros Hc;
        try discriminate Hc; reflexivity.
    + rewrite (main_calls_display_failed K e Hlcd). revert Hc.
      boot_cases K e 0; intros Hc; try discriminate Hc; reflexivity.
  - destruct (lcd_init_ok e) eqn:Hlcd.
    + destruct (main_calls_display_ok K e Hlcd)
        as (got & gw & tw & _ & _ & _ & _ & _ & Hm).
      rewrite Hm. revert Hc. boot_cases K e got; intros Hc;
        try discriminate Hc; eexists; reflexivity.
    + rewrite (main_calls_display_failed K e Hlcd). revert Hc.
      boot_cases K e 0; intros Hc; try discriminate Hc; eexists; reflexivity.
  - intros r. unfold boot, app_main_boot. cbn [with_second_init nvs_first_init
      nvs_erase_status nvs_second_init lcd_init_ok sdmmc_mount_status
      link_events bt_controller_init_status bt_controller_enable_status
      bluedroid_init_status bluedroid_enable_status].
    cbv [bind invoke ESP_LOGI emit]. unfold is_corruption in Hc. rewrite Hc.
    reflexivity.
Qed.

Lemma C1_one_erase_reinit_cycle_witness :
  is_corruption idf (nvs_first_init env_store_bad_twice) = true /\
  count is_nvs_erase (main_calls idf env_store_bad_twice) = 1%nat /\
  count is_nvs_init (main_calls idf env_store_bad_twice) = 2%nat.
Proof.
  split; [reflexivity|].
  destruct (C1_one_erase_reinit_cycle idf env_store_bad_twice eq_refl)
    as (H1 & H2 & _).
  split; assumption.
Defined.

(** C2: the boot reaches the UIReady stage exactly when the display init
    succeeded.  When it failed, the boot ends in a restart that is asked for
    once, as its last call; no task has called the UI engine (no start, no
    tick, no processing, no flush, no widget), neither the tick timer nor
    the render task has been created, and the closing loop of [app_main]
    never runs. *)
Theorem C2_ui_ready_iff_display_ok (K : sdk_constants) (e : boot_env) :
  reaches UIReady (main_calls K e) = lcd_init_ok e /\
  returned (boot K e) = lcd_init_ok e /\
  (lcd_init_ok e = false ->
     count is_restart (all_calls K e) = 1%nat /\
     (exists before, all_calls K e = before ++ [esp_restart]) /\
     count is_ui_call (all_calls K e) = 0%nat /\
     count starts_ui_context (all_calls K e) = 0%nat /\
     forall n, app_main K e n initial_globals = boot K e).
Proof.
  destruct (lcd_init_ok e) eqn:Hlcd.
  - destruct (main_calls_display_ok K e Hlcd)
      as (got & gw & tw & _ & _ & _ & _ & B & Hm).
    split; [|split].
    + rewrite Hm. boot_cases K e got; reflexivity.
    + now rewrite B.
    + discriminate.
  - split; [|split].
    + rewrite (main_calls_display_failed K e Hlcd).
      boot_cases K e 0; reflexivity.
    + unfold boot. now rewrite (boot_display_failed K e Hlcd).
    + intros _. rewrite (all_calls_display_failed K e Hlcd).
      repeat split.
      * boot_cases K e 0; reflexivity.
      * boot_cases K e 0;
          match goal with |- exists b, ?l = _ => exists (removelast l) end;
          reflexivity.
      * boot_cases K e 0; reflexivity.
      * boot_cases K e 0; reflexivity.
      * intros n. unfold app_main, boot, bind.
        now rewrite (boot_display_failed K e Hlcd).
Qed.

Lemma C2_ui_ready_iff_display_ok_witness :
  lcd_init_ok env_display_dead = false /\
  count is_restart (all_calls idf env_display_dead) = 1%nat /\
  count is_ui_call (all_calls idf env_display_dead) = 0%nat.
Proof.
  split; [reflexivity|].
  destruct (C2_ui_ready_iff_display_ok idf env_display_dead) as (_ & _ & H).
  destruct (H eq_refl) as (H1 & _ & H2 & _).
  split; assumption.
Defined.

(** ** Degraded stages *)

(** C5, as stated, fails: when the controller and the stack both fail to
    enable, the pairing flag is true after the boot all the same. *)
Lemma C5_flag_true_after_failed_enable :
  bt_controller_enable_status env_radio_dead <> ESP_OK idf /\
  bluedroid_enable_status env_radio_dead <> ESP_OK idf /\
  pairingReady (globals_of (boot idf env_radio_dead)) = true.
Proof. repeat split; try reflexivity; discriminate. Qed.

(** C5, amended: the pairing stage is not fatal, whatever its four calls
    return: the boot returns without a restart and goes on to TimeSync and
    UIReady.  [bt_init] looks at none of the four results and sets the flag
    to true in every case, so the flag tells that the stage has run, not
    that the enable succeeded. *)
Theorem C5_pairing_never_fatal_flag_unconditional
  (K : sdk_constants) (e : boot_env) :
  lcd_init_ok e = true ->
  returned (boot K e) = true /\
  count is_restart (all_calls K e) = 0%nat /\
  stages (main_calls K e) = stage_order ++ [UIReady] /\
  pairingReady (globals_of (boot K e)) = true /\
  (forall ctrl_init ctrl_enable stack_init stack_enable g,
     bt_init ctrl_init ctrl_enable stack_init stack_enable g
     = Done tt (set_bt_enabled true g) (on_task MainTask pairing_calls)).
Proof.
  intros Hlcd.
  destruct (boot_stages_summary K e) as (Hs & _ & Hr).
  rewrite Hlcd in Hs, Hr.
  destruct (main_calls_display_ok K e Hlcd)
    as (got & gw & tw & _ & _ & _ & _ & B & _).
  repeat split; auto.
  - now rewrite B.
  - now rewrite B.
Qed.

Lemma C5_pairing_never_fatal_flag_unconditional_witness :
  lcd_init_ok env_radio_dead = true /\
  returned (boot idf env_radio_dead) = true /\
  pairingReady (globals_of (boot idf env_radio_dead)) = true.
Proof.
  split; [reflexivity|].
  destruct (C5_pairing_never_fatal_flag_unconditional idf env_radio_dead eq_refl)
    as (H1 & _ & _ & H2 & _).
  split; assumption.
Defined.

(** C8: when the mount fails the storage is not reported ready, the mount
    is tried once and not again, the failure is logged and nothing else is
    done about it (no restart, the boot returns); the call that follows the
    failure log is the first one of the Connectivity stage. *)
Theorem C8_storage_failure_degrades (K : sdk_constants) (e : boot_env) :
  lcd_init_ok e = true ->
  sdmmc_mount_status e <> ESP_OK K ->
  storageReady (main_calls K e) = false /\
  count is_mount (main_calls K e) = 1%nat /\
  returned (boot K e) = true /\
  count is_restart (all_calls K e) = 0%nat /\
  stages (main_calls K e) = stage_order ++ [UIReady] /\
  (exists before after,
     main_calls K e
     = before
       ++ [esp_vfs_fat_sdmmc_mount "/sdcard" true 5;
           ESP_LOG LOGE "SD Fail %d - Fallback to Flash" [sdmmc_mount_status e];
           ESP_LOG LOGI "Init WiFi" []; esp_netif_init]
       ++ after /\
     stages before = [ConfigStore; Display]).
Proof.
  intros Hlcd Hsd.
  destruct (boot_stages_summary K e) as (Hs & _ & Hr).
  rewrite Hlcd in Hs, Hr.
  destruct (main_calls_display_ok K e Hlcd)
    as (got & gw & tw & _ & _ & _ & _ & B & Hm).
  apply Z.eqb_neq in Hsd.
  repeat split; auto.
  - rewrite Hm. revert Hsd. boot_cases K e got; intros Hsd;
      try discriminate Hsd; reflexivity.
  - rewrite Hm. revert Hsd. boot_cases K e got; intros Hsd;
      try discriminate Hsd; reflexivity.
  - now rewrite B.
  - rewrite Hm. unfold calls_to_wait, storage_calls. rewrite Hsd.
    exists (ESP_LOG LOGI "App Main" [] :: config_store_calls K e
            ++ [xEventGroupCreate] ++ display_calls true
            ++ [ESP_LOG LOGI "Init SD" []]).
    exists (tl (tl (connectivity_calls K))
            ++ calls_after_wait got ++ watchdog_calls).
    split.
    + cbn [app connectivity_calls tl]. rewrite <- !app_assoc.
      cbn [app]. rewrite <- !app_assoc. reflexivity.
    + unfold config_store_calls.
      destruct (is_corruption K (nvs_first_init e)); reflexivity.
Qed.

Lemma C8_storage_failure_degrades_witness :
  lcd_init_ok env_card_missing = true /\
  sdmmc_mount_status env_card_missing <> ESP_OK idf /\
  storageReady (main_calls idf env_card_missing) = false /\
  count is_mount (main_calls idf env_card_missing) = 1%nat.
Proof.
  assert (Hsd : sdmmc_mount_status env_card_missing <> ESP_OK idf)
    by discriminate.
  split; [reflexivity|]. split; [exact Hsd|].
  destruct (C8_storage_failure_degrades idf env_card_missing eq_refl Hsd)
    as (H1 & H2 & _).
  split; assumption.
Defined.

(** ** The wait for the first connection *)

Section BackgroundRetry.

Variable K : sdk_constants.

(** Whatever the globals, a Disconnected event makes the handler call
    [esp_wifi_connect] once, and no delay. *)
Lemma disconnect_connects_once (b : esp_event_base_t) (g : globals) :
  exists g' t,
    wifi_event_handler K b (WIFI_EVENT_STA_DISCONNECTED K) g = Done tt g' t /\
    count is_connect (map snd t) = 1%nat /\
    count is_delay (map snd t) = 0%nat.
Proof.
  unfold wifi_event_handler.
  destruct (WIFI_EVENT_STA_DISCONNECTED K =? WIFI_EVENT_STA_START K).
  - do 2 eexists. split; [reflexivity|]. split; reflexivity.
  - rewrite Z.eqb_refl. do 2 eexists. split; [reflexivity|].
    split; reflexivity.
Qed.

Lemma disconnects_connect_each (n : nat) (g : globals) :
  exists g' t,
    run K (disconnects K n) g = Done tt g' t /\
    count is_connect (map snd t) = n /\
    count is_delay (map snd t) = 0%nat.
Proof.
  revert g. induction n as [|n IH]; intros g.
  - exists g, []. repeat split.
  - cbn [disconnects repeat run perform]. unfold bind, deliver.
    cbn [registered fst snd].
    destruct (disconnect_connects_once WIFI_EVENT g) as (g1 & t1 & E1 & C1 & D1).
    rewrite E1. destruct (IH g1) as (g2 & t2 & E2 & C2 & D2).
    fold (disconnects K n). rewrite E2. exists g2, (t1 ++ t2).
    rewrite map_app, !count_app, C1, C2, D1, D2. repeat split.
Qed.

End BackgroundRetry.

(** C7: the Connectivity stage blocks the main task in one place only, one
    wait on the connected bit with the fixed timeout of 10000 ms; the boot
    has no other wait and no delay, and it returns.  When that wait runs
    out, the timeout is logged once, no restart is asked for, the
    connectivity flag is false, the stages after Connectivity run, and the
    handler goes on answering every later Disconnected event with one
    connection attempt. *)
Theorem C7_bounded_wait_then_proceed (K : sdk_constants) (e : boot_env) :
  lcd_init_ok e = true ->
  returned (boot K e) = true /\
  filter is_wait (main_calls K e)
  = [xEventGroupWaitBits WIFI_CONNECTED_BIT false true 10000] /\
  count is_delay (main_calls K e) = 0%nat /\
  (wait_expired K e = true ->
     count (is_log LOGE "WiFi Timeout - Check clé/UI input") (main_calls K e)
     = 1%nat /\
     count is_restart (all_calls K e) = 0%nat /\
     connectivityReady (globals_of (boot K e)) = false /\
     stages (main_calls K e) = stage_order ++ [UIReady] /\
     forall n,
       count is_connect
         (map snd (trace_of (run K (disconnects K n) (globals_of (boot K e)))))
       = n).
Proof.
  intros Hlcd.
  destruct (boot_stages_summary K e) as (Hs & _ & Hr).
  rewrite Hlcd in Hs, Hr.
  destruct (main_calls_display_ok K e Hlcd)
    as (got & gw & tw & E & Hgot & _ & Hlink & B & Hm).
  split; [now rewrite B|]. split; [|split].
  - rewrite Hm. boot_cases K e got; reflexivity.
  - rewrite Hm. boot_cases K e got; reflexivity.
  - unfold wait_expired. rewrite E. intros Hexp.
    repeat split; auto.
    + rewrite Hm. unfold calls_after_wait, timeout_calls. rewrite Hexp.
      boot_cases K e got; reflexivity.
    + rewrite B. cbn [globals_of connectivityReady set_bt_enabled wifi_connected].
      apply Z.eqb_eq in Hexp. destruct (wifi_connected gw) eqn:Hw; [|reflexivity].
      specialize (Hlink Hw). rewrite <- Hgot, Hexp in Hlink.
      discriminate Hlink.
    + intros n.
      destruct (disconnects_connect_each K n (globals_of (boot K e)))
        as (g' & t & Erun & Hc & _).
      now rewrite Erun.
Qed.

Lemma C7_bounded_wait_then_proceed_witness :
  lcd_init_ok env_no_access_point = true /\
  wait_expired idf env_no_access_point = true /\
  returned (boot idf env_no_access_point) = true /\
  connectivityReady (globals_of (boot idf env_no_access_point)) = false.
Proof.
  split; [reflexivity|]. split; [reflexivity|].
  destruct (C7_bounded_wait_then_proceed idf env_no_access_point eq_refl)
    as (H1 & _ & _ & H).
  destruct (H eq_refl) as (_ & _ & H2 & _).
  split; assumption.
Defined.

(** The end-to-end scenario of the spec: store and display fine, mount
    fails, no connection within the wait, pairing and time sync started. *)
Example boot_with_card_missing :
  returned (boot idf env_card_missing) = true /\
  storageReady (main_calls idf env_card_missing) = false /\
  connectivityReady (globals_of (boot idf env_card_missing)) = false /\
  pairingReady (globals_of (boot idf env_card_missing)) = true /\
  stages (main_calls idf env_card_missing) = stage_order ++ [UIReady].
Proof. repeat split. Qed.

(** ** The watchdog *)

Lemma count_zero_prefix {A} (p : A -> bool) (l m : list A) :
  count p (l ++ m) = 0%nat -> count p l = 0%nat.
Proof. rewrite count_app. lia. Qed.

(** When a list ends in a block [w] and nothing before the block satisfies
    [p], every cut of the list falls before the first [p] or inside [w]. *)
Lemma cut_before_or_inside {A} (p : A -> bool) (pre w l r : list A) :
  pre ++ w = l ++ r ->
  count p pre = 0%nat ->
  Forall (fun x => p x = true) w ->
  count p l = 0%nat \/ Forall (fun x => p x = true) r.
Proof.
  intros E Hpre Hw.
  destruct (app_eq_app _ _ _ _ E) as (m & [[Hl Hr] | [Hl Hr]]).
  - left. subst pre. now apply count_zero_prefix in Hpre.
  - right. subst w. now apply Forall_app in Hw.
Qed.

(** C10: the two watchdog calls are the last two calls of the boot: every
    stage, the creation of the render task and the one wait of 10000 ms
    come before them, and no task calls the watchdog earlier.  So at any
    cut of the boot, either no watchdog call has been made yet or only the
    watchdog calls remain: a boot that stops in a stage stops with no
    watchdog armed.  A boot whose display fails never arms it. *)
Theorem C10_watchdog_armed_after_boot (K : sdk_constants) (e : boot_env) :
  (if lcd_init_ok e then
     exists before,
       main_calls K e
       = before ++ [esp_task_wdt_init WDT_TIMEOUT_S true; esp_task_wdt_add] /\
       count is_wdt_call before = 0%nat /\
       stages before = stage_order ++ [UIReady] /\
       filter is_wait before
       = [xEventGroupWaitBits WIFI_CONNECTED_BIT false true 10000] /\
       last before lv_init = xTaskCreate "lvgl_task" 8192 4
   else count is_wdt_call (main_calls K e) = 0%nat) /\
  count is_wdt_call (all_calls K e) = count is_wdt_call (main_calls K e) /\
  (forall reached remaining,
     main_calls K e = reached ++ remaining ->
     count is_wdt_call reached = 0%nat \/
     Forall (fun c => is_wdt_call c = true) remaining).
Proof.
  destruct (lcd_init_ok e) eqn:Hlcd.
  - destruct (main_calls_display_ok K e Hlcd)
      as (got & gw & tw & _ & _ & Htw & _ & B & Hm).
    assert (Hbefore : count is_wdt_call (calls_to_wait K e ++ calls_after_wait got)
                      = 0%nat)
      by (boot_cases K e got; reflexivity).
    split; [|split].
    + exists (calls_to_wait K e ++ calls_after_wait got).
      rewrite Hm, <- app_assoc. split; [reflexivity|]. split; [exact Hbefore|].
      repeat split; boot_cases K e got; reflexivity.
    + unfold all_calls. rewrite B, Hm. cbn [trace_of].
      rewrite !map_app, !map_snd_on_task, !count_app.
      rewrite (event_task_count_zero is_wdt_call tw) by
        (auto; intros []; cbn; congruence).
      lia.
    + intros reached remaining Hcut. rewrite Hm, app_assoc in Hcut.
      apply (cut_before_or_inside is_wdt_call _ _ _ _ Hcut Hbefore).
      repeat constructor.
  - rewrite (main_calls_display_failed K e Hlcd),
      (all_calls_display_failed K e Hlcd).
    assert (Hnone : count is_wdt_call (calls_to_restart K e) = 0%nat)
      by (boot_cases K e 0; reflexivity).
    split; [exact Hnone|]. split; [reflexivity|].
    intros reached remaining Hcut. left. rewrite Hcut in Hnone.
    now apply count_zero_prefix in Hnone.
Qed.

Lemma C10_watchdog_armed_after_boot_witness :
  main_calls idf env_no_access_point
  = firstn 22 (main_calls idf env_no_access_point)
    ++ skipn 22 (main_calls idf env_no_access_point) /\
  (count is_wdt_call (firstn 22 (main_calls idf env_no_access_point)) = 0%nat \/
   Forall (fun c => is_wdt_call c = true)
     (skipn 22 (main_calls idf env_no_access_point))).
Proof.
  assert (Hcut : main_calls idf env_no_access_point
                 = firstn 22 (main_calls idf env_no_access_point)
                   ++ skipn 22 (main_calls idf env_no_access_point))
    by (symmetry; apply firstn_skipn).
  split; [exact Hcut|].
  destruct (C10_watchdog_armed_after_boot idf env_no_access_point) as (_ & _ & H).
  exact (H _ _ Hcut).
Defined.

(** ** The link events *)

(** C3, as stated, fails: before any Started event, with the flag down and
    the event group empty, an IPAcquired event raises the flag and sets the
    connected bit. *)
Lemma C3_ip_acquired_not_ignored :
  globals_of (deliver idf (IP_EVENT, IP_EVENT_STA_GOT_IP idf) initial_globals)
  = {| wifi_connected := true; bt_enabled := false;
       wifi_event_group := WIFI_CONNECTED_BIT |} /\
  globals_of (deliver idf (IP_EVENT, IP_EVENT_STA_GOT_IP idf) initial_globals)
  <> initial_globals.
Proof. split; [reflexivity|discriminate]. Qed.

(** C3, amended: the handler keeps no connectivity state and treats an
    IPAcquired event the same way in every state: it sets the connected flag,
    sets the connected bit of the event group, which releases the wait of the
    boot, logs, and calls nothing else (no [esp_wifi_connect]). *)
Theorem C3_ip_acquired_in_any_state
  (K : sdk_constants) (b : esp_event_base_t) (g : globals) :
  IP_EVENT_STA_GOT_IP K <> WIFI_EVENT_STA_START K ->
  IP_EVENT_STA_GOT_IP K <> WIFI_EVENT_STA_DISCONNECTED K ->
  wifi_event_handler K b (IP_EVENT_STA_GOT_IP K) g
  = Done tt
      {| wifi_connected := true;
         bt_enabled := bt_enabled g;
         wifi_event_group := Z.lor (wifi_event_group g) WIFI_CONNECTED_BIT |}
      [(EventTask, xEventGroupSetBits WIFI_CONNECTED_BIT);
       (EventTask, ESP_LOG LOGI "WiFi IP OK" [])]
  /\ Z.land (Z.lor (wifi_event_group g) WIFI_CONNECTED_BIT) WIFI_CONNECTED_BIT
     = WIFI_CONNECTED_BIT.
Proof.
  intros H1 H2. split.
  - now apply handler_got_ip.
  - apply land_lor_bit.
Qed.

Lemma C3_ip_acquired_in_any_state_witness :
  IP_EVENT_STA_GOT_IP idf <> WIFI_EVENT_STA_START idf /\
  IP_EVENT_STA_GOT_IP idf <> WIFI_EVENT_STA_DISCONNECTED idf /\
  wifi_event_handler idf IP_EVENT (IP_EVENT_STA_GOT_IP idf) initial_globals
  = Done tt
      {| wifi_connected := true; bt_enabled := false;
         wifi_event_group := Z.lor 0 WIFI_CONNECTED_BIT |}
      [(EventTask, xEventGroupSetBits WIFI_CONNECTED_BIT);
       (EventTask, ESP_LOG LOGI "WiFi IP OK" [])].
Proof.
  assert (H1 : IP_EVENT_STA_GOT_IP idf <> WIFI_EVENT_STA_START idf)
    by discriminate.
  assert (H2 : IP_EVENT_STA_GOT_IP idf <> WIFI_EVENT_STA_DISCONNECTED idf)
    by discriminate.
  split; [exact H1|]. split; [exact H2|].
  exact (proj1 (C3_ip_acquired_in_any_state idf IP_EVENT initial_globals H1 H2)).
Defined.

(** C4: [n] Disconnected events in a row, in any state, make the handler
    issue [n] connection attempts, one per event and nothing between them
    but the log line (no delay, no count of attempts); from the first event
    on the connected flag is down. *)
Theorem C4_one_connect_per_disconnect
  (K : sdk_constants) (n : nat) (g : globals) :
  WIFI_EVENT_STA_START K <> WIFI_EVENT_STA_DISCONNECTED K ->
  deliver_all K (repeat (WIFI_EVENT, WIFI_EVENT_STA_DISCONNECTED K) n) g
  = Done tt
      (match n with O => g | S _ => set_wifi_connected false g end)
      (on_task EventTask (retry_calls n))
  /\ count is_connect (retry_calls n) = n
  /\ count is_delay (retry_calls n) = 0%nat.
Proof.
  intros Hne. split; [|split].
  - revert g. induction n as [|n IH]; intros g; [reflexivity|].
    cbn [repeat deliver_all]. unfold bind at 1, deliver.
    cbn [registered fst snd]. rewrite (handler_disconnected K WIFI_EVENT g Hne).
    rewrite IH. destruct n; reflexivity.
  - induction n as [|n IH]; [reflexivity|].
    unfold retry_calls in *. cbn [repeat List.concat]. rewrite count_app, IH.
    reflexivity.
  - induction n as [|n IH]; [reflexivity|].
    unfold retry_calls in *. cbn [repeat List.concat]. rewrite count_app, IH.
    reflexivity.
Qed.

Lemma C4_one_connect_per_disconnect_witness :
  WIFI_EVENT_STA_START idf <> WIFI_EVENT_STA_DISCONNECTED idf /\
  deliver_all idf (repeat (WIFI_EVENT, WIFI_EVENT_STA_DISCONNECTED idf) 3)
    {| wifi_connected := true; bt_enabled := true;
       wifi_event_group := WIFI_CONNECTED_BIT |}
  = Done tt
      {| wifi_connected := false; bt_enabled := true;
         wifi_event_group := WIFI_CONNECTED_BIT |}
      (on_task EventTask (retry_calls 3)).
Proof.
  assert (Hne : WIFI_EVENT_STA_START idf <> WIFI_EVENT_STA_DISCONNECTED idf)
    by discriminate.
  split; [exact Hne|].
  exact (proj1 (C4_one_connect_per_disconnect idf 3
                  {| wifi_connected := true; bt_enabled := true;
                     wifi_event_group := WIFI_CONNECTED_BIT |} Hne)).
Defined.

(** ** The running system and the watchdog *)

Lemma flush_each_trace (areas : list lv_area_t) (g : globals) :
  flush_each areas g = Done tt g (on_task RenderTask (flush_calls areas)).
Proof.
  induction areas as [|a areas IH]; [reflexivity|].
  cbn [flush_each]. cbv [bind flush_cb emit invoke]. rewrite IH.
  reflexivity.
Qed.

Lemma lvgl_task_period_trace (areas : list lv_area_t) (g : globals) :
  lvgl_task_period areas g
  = Done tt g (on_task RenderTask
                 (lv_task_handler :: flush_calls areas
                  ++ [vTaskDelay LVGL_TICK_MS])).
Proof.
  cbv [lvgl_task_period bind emit invoke]. rewrite flush_each_trace.
  cbn [on_task map app]. unfold on_task. now rewrite map_app.
Qed.

Lemma render_calls_not_reset (areas : list lv_area_t) :
  Forall (fun c => is_wdt_reset c = false)
    (lv_task_handler :: flush_calls areas ++ [vTaskDelay LVGL_TICK_MS]).
Proof.
  constructor; [reflexivity|]. apply Forall_app. split.
  - induction areas as [|a areas IH]; cbn; repeat constructor. exact IH.
  - repeat constructor.
Qed.

Lemma on_task_reset_by_main (ctx : task) (cs : list call) :
  Forall (fun c => is_wdt_reset c = false) cs ->
  Forall reset_by_main (on_task ctx cs).
Proof.
  intros H. apply Forall_map. eapply Forall_impl; [|exact H].
  intros c Hc F. cbn in F. congruence.
Qed.

Lemma event_entries_reset_by_main (t : trace) :
  Forall event_task_entry t -> Forall reset_by_main t.
Proof.
  apply Forall_impl. intros [ctx c] [_ Hc] F. cbn in *.
  destruct c; discriminate.
Qed.

(** One turn of any context: the main task calls the delay and the reset
    when the turn is the supervisor's, and nothing otherwise; no other task
    calls the reset. *)
Lemma perform_turn (K : sdk_constants) (a : activity) (g : globals) :
  exists g' t,
    perform K a g = Done tt g' t /\
    calls_of MainTask t
    = (if is_supervisor_turn a
       then [vTaskDelay SUPERVISOR_PERIOD_MS; esp_task_wdt_reset] else []) /\
    Forall reset_by_main t.
Proof.
  destruct a as [|areas| |b i]; cbn [perform is_supervisor_turn].
  - do 2 eexists. split; [reflexivity|]. split; [reflexivity|].
    repeat constructor.
  - rewrite lvgl_task_period_trace. do 2 eexists. split; [reflexivity|].
    split.
    + now apply calls_of_on_task_other.
    + apply on_task_reset_by_main, render_calls_not_reset.
  - do 2 eexists. split; [reflexivity|]. split; [reflexivity|].
    repeat constructor. intros F. discriminate F.
  - destruct (deliver_frame K (b, i) g) as [Hd Hev _ _].
    destruct (deliver K (b, i) g) as [[] g1 t1|]; [|discriminate Hd].
    cbn in Hev. exists g1, t1. split; [reflexivity|]. split.
    + now apply event_task_not_main.
    + now apply event_entries_reset_by_main.
Qed.

Lemma run_turns (K : sdk_constants) (sched : list activity) (g : globals) :
  exists g' t,
    run K sched g = Done tt g' t /\
    calls_of MainTask t = supervisor_calls (count is_supervisor_turn sched) /\
    Forall reset_by_main t.
Proof.
  revert g. induction sched as [|a sched IH]; intros g.
  - exists g, []. repeat split. constructor.
  - cbn [run]. unfold bind.
    destruct (perform_turn K a g) as (g1 & t1 & E1 & M1 & R1). rewrite E1.
    destruct (IH g1) as (g2 & t2 & E2 & M2 & R2). rewrite E2.
    exists g2, (t1 ++ t2). split; [reflexivity|]. split.
    + rewrite calls_of_app, M1, M2. unfold count. cbn [filter].
      destruct (is_supervisor_turn a); reflexivity.
    + now apply Forall_app.
Qed.

Lemma supervisor_calls_resets (n : nat) :
  count is_wdt_reset (supervisor_calls n) = n.
Proof.
  induction n as [|n IH]; [reflexivity|].
  unfold supervisor_calls in *. cbn [repeat List.concat].
  rewrite count_app, IH. reflexivity.
Qed.

(** * Further properties of the file *)

(** ** Sequences of link events *)

Lemma deliver_unhandled (K : sdk_constants) (ev : esp_event_base_t * Z)
  (g : globals) :
  handled K ev = false -> deliver K ev g = Done tt g [].
Proof.
  destruct ev as [b i]. unfold handled. cbn [fst snd]. intros H.
  handler_cases K b i; cbn in H; try discriminate H; reflexivity.
Qed.

Lemma bind_skip {A} (k : M A) (g : globals) :
  match k g with
  | Done b g2 t2 => Done b g2 ([] ++ t2)
  | Rebooted g2 t2 => Rebooted g2 ([] ++ t2)
  end = k g.
Proof. now destruct (k g). Qed.

(** X1: events that are not handed to the handler, or that match none of
    its three branches, change nothing wherever they occur in a sequence:
    leaving them out gives the same globals and the same trace. *)
Theorem X1_unhandled_events_ignored
  (K : sdk_constants) (evs : list (esp_event_base_t * Z)) (g : globals) :
  deliver_all K evs g = deliver_all K (filter (handled K) evs) g.
Proof.
  revert g. induction evs as [|ev evs IH]; intros g; [reflexivity|].
  cbn [filter]. destruct (handled K ev) eqn:Hh.
  - cbn [deliver_all]. unfold bind.
    destruct (deliver K ev g) as [[] g1 t1|]; [|reflexivity].
    now rewrite IH.
  - cbn [deliver_all]. unfold bind. rewrite (deliver_unhandled K ev g Hh).
    rewrite <- IH. apply (bind_skip (deliver_all K evs)).
Qed.

Lemma deliver_connects (K : sdk_constants) (ev : esp_event_base_t * Z)
  (g : globals) :
  exists g' t,
    deliver K ev g = Done tt g' t /\
    count is_connect (map snd t) = (if asks_connect K ev then 1 else 0)%nat.
Proof.
  destruct ev as [b i]. unfold asks_connect. cbn [fst snd].
  handler_cases K b i; do 2 eexists; split; reflexivity.
Qed.

Lemma deliver_all_summary
  (K : sdk_constants) (evs : list (esp_event_base_t * Z)) (g : globals) :
  exists g' t,
    deliver_all K evs g = Done tt g' t /\
    count is_connect (map snd t) = count (asks_connect K) evs /\
    count is_delay (map snd t) = 0%nat /\
    bt_enabled g' = bt_enabled g /\
    Forall event_task_entry t.
Proof.
  revert g. induction evs as [|ev evs IH]; intros g.
  - exists g, []. repeat split. constructor.
  - cbn [deliver_all]. unfold bind.
    destruct (deliver_connects K ev g) as (g1 & t1 & E1 & C1).
    destruct (deliver_frame K ev g) as [_ Hev Hbt _].
    rewrite E1 in Hev, Hbt |- *. cbn in Hev, Hbt.
    destruct (IH g1) as (g2 & t2 & E2 & C2 & D2 & B2 & F2). rewrite E2.
    exists g2, (t1 ++ t2). split; [reflexivity|].
    assert (F : Forall event_task_entry (t1 ++ t2)) by now apply Forall_app.
    repeat split; auto.
    + rewrite map_app, count_app, C1, C2. unfold count. cbn [filter].
      destruct (asks_connect K ev); reflexivity.
    + apply event_task_count_zero; auto. intros []; cbn; congruence.
    + congruence.
Qed.

(** X2: for every sequence of link events the handler returns (it never
    asks for a restart), calls [esp_wifi_connect] once for each Started or
    Disconnected event handed to it and for no other event, never delays,
    never touches [bt_enabled], and everything it calls is
    [esp_wifi_connect], [xEventGroupSetBits] or the logger, on the event
    loop. *)
Theorem X2_event_sequence_summary
  (K : sdk_constants) (evs : list (esp_event_base_t * Z)) (g : globals) :
  exists g' t,
    deliver_all K evs g = Done tt g' t /\
    count is_connect (map snd t) = count (asks_connect K) evs /\
    count is_delay (map snd t) = 0%nat /\
    bt_enabled g' = bt_enabled g /\
    Forall event_task_entry t.
Proof. exact (deliver_all_summary K evs g). Qed.

Lemma deliver_keeps_bit (K : sdk_constants) (ev : esp_event_base_t * Z)
  (g : globals) :
  Z.land (wifi_event_group g) WIFI_CONNECTED_BIT = WIFI_CONNECTED_BIT ->
  exists g' t,
    deliver K ev g = Done tt g' t /\
    Z.land (wifi_event_group g') WIFI_CONNECTED_BIT = WIFI_CONNECTED_BIT.
Proof.
  intros Hbit. destruct ev as [b i].
  handler_cases K b i; do 2 eexists; (split; [reflexivity|]); cbn; auto.
  apply land_lor_bit.
Qed.

(** X3: no event clears the connected bit of the event group.  Once it is
    set it stays set through every later sequence of events, also those
    that end with the link down, and a wait on the bit then returns at once
    without any event being handled. *)
Theorem X3_connected_bit_never_cleared
  (K : sdk_constants) (evs later : list (esp_event_base_t * Z)) (g : globals) :
  Z.land (wifi_event_group g) WIFI_CONNECTED_BIT = WIFI_CONNECTED_BIT ->
  exists g' t,
    deliver_all K evs g = Done tt g' t /\
    Z.land (wifi_event_group g') WIFI_CONNECTED_BIT = WIFI_CONNECTED_BIT /\
    wait_bits K WIFI_CONNECTED_BIT later g' = Done (wifi_event_group g') g' [].
Proof.
  revert g. induction evs as [|ev evs IH]; intros g Hbit.
  - exists g, []. split; [reflexivity|]. split; [exact Hbit|].
    destruct later; cbn [wait_bits]; rewrite Hbit, Z.eqb_refl; reflexivity.
  - cbn [deliver_all]. unfold bind.
    destruct (deliver_keeps_bit K ev g Hbit) as (g1 & t1 & E1 & H1).
    rewrite E1. destruct (IH g1 H1) as (g2 & t2 & E2 & H2 & W2). rewrite E2.
    exists g2, (t1 ++ t2). repeat split; auto.
Qed.

Lemma X3_connected_bit_never_cleared_witness :
  Z.land (wifi_event_group globals_connected) WIFI_CONNECTED_BIT
  = WIFI_CONNECTED_BIT /\
  exists g' t,
    deliver_all idf [(WIFI_EVENT, WIFI_EVENT_STA_DISCONNECTED idf)]
      globals_connected = Done tt g' t /\
    Z.land (wifi_event_group g') WIFI_CONNECTED_BIT = WIFI_CONNECTED_BIT /\
    wait_bits idf WIFI_CONNECTED_BIT [] g' = Done (wifi_event_group g') g' [].
Proof.
  split; [reflexivity|].
  exact (X3_connected_bit_never_cleared idf
           [(WIFI_EVENT, WIFI_EVENT_STA_DISCONNECTED idf)] []
           globals_connected eq_refl).
Defined.

(** X4: the handler looks at the numeric id alone, not at the event base.
    An event of base [WIFI_EVENT] whose id equals [IP_EVENT_STA_GOT_IP] is
    handed to it (the registration for [WIFI_EVENT] takes every id) and
    handled as an acquired address: flag up, bit set, no connection
    attempt.  An [IP_EVENT] with any other id is not handed to it. *)
Theorem X4_dispatch_on_id_alone
  (K : sdk_constants) (i : Z) (g : globals) :
  IP_EVENT_STA_GOT_IP K <> WIFI_EVENT_STA_START K ->
  IP_EVENT_STA_GOT_IP K <> WIFI_EVENT_STA_DISCONNECTED K ->
  deliver K (WIFI_EVENT, IP_EVENT_STA_GOT_IP K) g
  = Done tt
      {| wifi_connected := true;
         bt_enabled := bt_enabled g;
         wifi_event_group := Z.lor (wifi_event_group g) WIFI_CONNECTED_BIT |}
      [(EventTask, xEventGroupSetBits WIFI_CONNECTED_BIT);
       (EventTask, ESP_LOG LOGI "WiFi IP OK" [])]
  /\ deliver K (WIFI_EVENT, IP_EVENT_STA_GOT_IP K) g
     = deliver K (IP_EVENT, IP_EVENT_STA_GOT_IP K) g
  /\ (i <> IP_EVENT_STA_GOT_IP K -> deliver K (IP_EVENT, i) g = Done tt g []).
Proof.
  intros H1 H2. split; [|split].
  - unfold deliver. cbn [registered fst snd]. now apply handler_got_ip.
  - unfold deliver. cbn [registered fst snd]. rewrite Z.eqb_refl.
    unfold wifi_event_handler. reflexivity.
  - intros Hi. unfold deliver. cbn [registered fst snd].
    apply Z.eqb_neq in Hi. now rewrite Hi.
Qed.

Lemma X4_dispatch_on_id_alone_witness :
  IP_EVENT_STA_GOT_IP idf <> WIFI_EVENT_STA_START idf /\
  IP_EVENT_STA_GOT_IP idf <> WIFI_EVENT_STA_DISCONNECTED idf /\
  deliver idf (WIFI_EVENT, 0) initial_globals
  = deliver idf (IP_EVENT, IP_EVENT_STA_GOT_IP idf) initial_globals.
Proof.
  assert (H1 : IP_EVENT_STA_GOT_IP idf <> WIFI_EVENT_STA_START idf)
    by discriminate.
  assert (H2 : IP_EVENT_STA_GOT_IP idf <> WIFI_EVENT_STA_DISCONNECTED idf)
    by discriminate.
  split; [exact H1|]. split; [exact H2|].
  exact (proj1 (proj2 (X4_dispatch_on_id_alone idf 0 initial_globals H1 H2))).
Defined.

(** ** The outcome of the wait of [wifi_init] *)

Lemma bit_unset_in_empty_group :
  (Z.land 0 WIFI_CONNECTED_BIT =? WIFI_CONNECTED_BIT) = false.
Proof. reflexivity. Qed.

Lemma deliver_from_empty_group (K : sdk_constants)
  (ev : esp_event_base_t * Z) (g : globals) :
  wifi_event_group g = 0 ->
  exists g' t,
    deliver K ev g = Done tt g' t /\
    (wifi_event_group g' = 0 \/
     (wifi_event_group g' = WIFI_CONNECTED_BIT /\ wifi_connected g' = true)).
Proof.
  intros H0. destruct ev as [b i].
  handler_cases K b i; do 2 eexists; (split; [reflexivity|]); cbn; auto.
  right. rewrite H0. split; reflexivity.
Qed.

Lemma wait_from_empty_group (K : sdk_constants)
  (evs : list (esp_event_base_t * Z)) (g : globals) :
  wifi_event_group g = 0 ->
  exists got g' t,
    wait_bits K WIFI_CONNECTED_BIT evs g = Done got g' t /\
    got = wifi_event_group g' /\
    (wifi_event_group g' = 0 \/
     (wifi_event_group g' = WIFI_CONNECTED_BIT /\ wifi_connected g' = true)).
Proof.
  revert g. induction evs as [|ev evs IH]; intros g H0; cbn [wait_bits];
    rewrite H0, bit_unset_in_empty_group.
  - exists 0, g, []. rewrite H0. auto.
  - unfold bind.
    destruct (deliver_from_empty_group K ev g H0) as (g1 & t1 & E1 & [Z1|[B1 C1]]);
      rewrite E1.
    + destruct (IH g1 Z1) as (got & g2 & t2 & E2 & Hg & Hc). rewrite E2.
      exists got, g2, (t1 ++ t2). auto.
    + destruct evs; cbn [wait_bits]; rewrite B1; cbn;
        exists WIFI_CONNECTED_BIT, g1, (t1 ++ []); auto.
Qed.

Lemma wait_return_flag (K : sdk_constants) (e : boot_env) :
  wifi_connected (globals_of (wait_outcome K e)) = negb (wait_expired K e).
Proof.
  destruct (wait_bits_spec K (link_events e) initial_globals)
    as (got & gw & tw & E & Hgot & _ & _ & Hlink & _).
  destruct (wait_from_empty_group K (link_events e) initial_globals eq_refl)
    as (got' & gw' & tw' & E' & _ & Hc).
  rewrite E in E'. injection E' as <- <- <-.
  unfold wait_expired, wait_outcome. rewrite E. cbn [globals_of].
  destruct Hc as [Z0|[B1 C1]].
  - rewrite Hgot, Z0. change (0 =? 0) with true. cbn [negb].
    destruct (wifi_connected gw) eqn:Hw; [|reflexivity].
    assert (Hi : flag_implies_bit initial_globals) by (intros F; discriminate F).
    specialize (Hlink Hi Hw). rewrite Z0 in Hlink. discriminate Hlink.
  - rewrite Hgot, B1. exact C1.
Qed.

Lemma timeout_logged_on_expiry (K : sdk_constants) (e : boot_env) :
  count (is_log LOGE "WiFi Timeout - Check clé/UI input") (main_calls K e)
  = (if lcd_init_ok e && wait_expired K e then 1 else 0)%nat.
Proof.
  destruct (lcd_init_ok e) eqn:Hlcd; cbn [andb].
  - destruct (main_calls_display_ok K e Hlcd)
      as (got & gw & tw & E & _ & _ & _ & _ & Hm).
    unfold wait_expired. rewrite E, Hm.
    unfold calls_after_wait, timeout_calls.
    destruct (got =? 0); boot_cases K e 0; reflexivity.
  - rewrite (main_calls_display_failed K e Hlcd).
    boot_cases K e 0; reflexivity.
Qed.

(** X5: at the moment the wait of [wifi_init] returns, the connectivity
    flag is up exactly when the wait did not run out (the handler raises
    the flag before it sets the bit the wait is released by), and the
    timeout is logged exactly when the display came up and the wait ran
    out: at that moment the log line and the flag agree.  Events handled
    later can change the flag again. *)
Theorem X5_flag_tells_wait_outcome (K : sdk_constants) (e : boot_env) :
  wifi_connected (globals_of (wait_outcome K e)) = negb (wait_expired K e) /\
  count (is_log LOGE "WiFi Timeout - Check clé/UI input") (main_calls K e)
  = (if lcd_init_ok e && wait_expired K e then 1 else 0)%nat.
Proof. exact (conj (wait_return_flag K e) (timeout_logged_on_expiry K e)). Qed.

Lemma wait_expires_without_got_ip (K : sdk_constants)
  (evs : list (esp_event_base_t * Z)) (g : globals) :
  IP_EVENT_STA_GOT_IP K <> WIFI_EVENT_STA_START K ->
  IP_EVENT_STA_GOT_IP K <> WIFI_EVENT_STA_DISCONNECTED K ->
  wifi_event_group g = 0 ->
  exists got g' t,
    wait_bits K WIFI_CONNECTED_BIT evs g = Done got g' t /\
    (got =? 0) = negb (existsb (carries_got_ip K) evs).
Proof.
  intros H1 H2. revert g.
  induction evs as [|[b i] evs IH]; intros g H0; cbn [wait_bits];
    rewrite H0, bit_unset_in_empty_group.
  - exists 0, g, []. auto.
  - unfold bind. cbn [existsb]. unfold carries_got_ip at 1. cbn [snd].
    destruct (Z.eqb_spec i (IP_EVENT_STA_GOT_IP K)) as [->|Hne].
    + unfold deliver. cbn [registered fst snd].
      replace (registered K b (IP_EVENT_STA_GOT_IP K)) with true
        by (destruct b; cbn; now rewrite ?Z.eqb_refl).
      rewrite (handler_got_ip K b g H1 H2).
      destruct evs; cbn [wait_bits wifi_event_group]; rewrite H0; cbn;
        do 3 eexists; split; reflexivity.
    + assert (Hd : exists g1 t1, deliver K (b, i) g = Done tt g1 t1
                                 /\ wifi_event_group g1 = 0).
      { apply Z.eqb_neq in Hne.
        handler_cases K b i; try congruence;
          do 2 eexists; split; try reflexivity; exact H0. }
      destruct Hd as (g1 & t1 & E1 & Z1). rewrite E1.
      destruct (IH g1 Z1) as (got & g2 & t2 & E2 & Hg). rewrite E2.
      exists got, g2, (t1 ++ t2). auto.
Qed.

(** X6: the wait of [wifi_init] runs out exactly when none of the events
    posted within its window carries the id [IP_EVENT_STA_GOT_IP]; Started
    and Disconnected events, in any number, do not end it. *)
Theorem X6_wait_ends_on_got_ip (K : sdk_constants) (e : boot_env) :
  IP_EVENT_STA_GOT_IP K <> WIFI_EVENT_STA_START K ->
  IP_EVENT_STA_GOT_IP K <> WIFI_EVENT_STA_DISCONNECTED K ->
  wait_expired K e = negb (existsb (carries_got_ip K) (link_events e)).
Proof.
  intros H1 H2.
  destruct (wait_expires_without_got_ip K (link_events e) initial_globals
              H1 H2 eq_refl) as (got & g' & t & E & Hg).
  unfold wait_expired, wait_outcome. now rewrite E.
Qed.

Lemma X6_wait_ends_on_got_ip_witness :
  IP_EVENT_STA_GOT_IP idf <> WIFI_EVENT_STA_START idf /\
  IP_EVENT_STA_GOT_IP idf <> WIFI_EVENT_STA_DISCONNECTED idf /\
  wait_expired idf env_no_access_point
  = negb (existsb (carries_got_ip idf) (link_events env_no_access_point)).
Proof.
  assert (H1 : IP_EVENT_STA_GOT_IP idf <> WIFI_EVENT_STA_START idf)
    by discriminate.
  assert (H2 : IP_EVENT_STA_GOT_IP idf <> WIFI_EVENT_STA_DISCONNECTED idf)
    by discriminate.
  split; [exact H1|]. split; [exact H2|].
  exact (X6_wait_ends_on_got_ip idf env_no_access_point H1 H2).
Defined.

(** ** More on the boot *)

(** X7: the storage is reported ready exactly when the display came up and
    the mount returned [ESP_OK]; every other mount result takes the failure
    branch, which logs once; the mount is called once when the display came
    up and not at all otherwise. *)
Theorem X7_storage_ready_iff_mount_ok (K : sdk_constants) (e : boot_env) :
  storageReady (main_calls K e)
  = lcd_init_ok e && (sdmmc_mount_status e =? ESP_OK K) /\
  count (is_log LOGE "SD Fail %d - Fallback to Flash") (main_calls K e)
  = (if lcd_init_ok e && negb (sdmmc_mount_status e =? ESP_OK K)
     then 1%nat else 0%nat) /\
  count is_mount (main_calls K e) = (if lcd_init_ok e then 1 else 0)%nat.
Proof.
  destruct (lcd_init_ok e) eqn:Hlcd; cbn [andb].
  - destruct (main_calls_display_ok K e Hlcd)
      as (got & gw & tw & _ & _ & _ & _ & _ & Hm).
    rewrite Hm. repeat split; boot_cases K e got; reflexivity.
  - rewrite (main_calls_display_failed K e Hlcd).
    repeat split; boot_cases K e 0; reflexivity.
Qed.

(** X8: [app_main] looks at four answers only: the first store init, the
    display init, the mount and the link events.  Two environments that
    agree on these give the same run, whatever the erase, the second store
    init and the four short-range-radio calls return. *)
Theorem X8_discarded_results_do_not_matter
  (K : sdk_constants) (e e' : boot_env) (n : nat) (g : globals) :
  same_consulted e e' ->
  app_main K e n g = app_main K e' n g.
Proof.
  destruct e, e'. unfold same_consulted. cbn.
  intros (-> & -> & -> & ->).
  unfold app_main, app_main_boot, bt_init. cbn.
  cbv [bind invoke ESP_LOGI emit].
  destruct ((nvs_first_init1 =? ESP_ERR_NVS_NO_FREE_PAGES K)
            || (nvs_first_init1 =? ESP_ERR_NVS_NEW_VERSION_FOUND K));
    reflexivity.
Qed.

Lemma X8_discarded_results_do_not_matter_witness :
  same_consulted env_store_bad_twice
    (with_second_init 0 env_store_bad_twice) /\
  app_main idf env_store_bad_twice 3 initial_globals
  = app_main idf (with_second_init 0 env_store_bad_twice) 3 initial_globals.
Proof.
  assert (H : same_consulted env_store_bad_twice
                (with_second_init 0 env_store_bad_twice))
    by (repeat split).
  split; [exact H|].
  exact (X8_discarded_results_do_not_matter idf _ _ 3 initial_globals H).
Defined.

(** X9: a first store init that returns anything but one of the two
    corruption signals, another error code included, is followed by no
    erase and no second init, and the boot goes on as after a success: it
    returns unless the display fails. *)
Theorem X9_no_erase_without_corruption_signal
  (K : sdk_constants) (e : boot_env) :
  is_corruption K (nvs_first_init e) = false ->
  count is_nvs_erase (main_calls K e) = 0%nat /\
  count is_nvs_init (main_calls K e) = 1%nat /\
  returned (boot K e) = lcd_init_ok e.
Proof.
  intros Hc. destruct (lcd_init_ok e) eqn:Hlcd.
  - destruct (main_calls_display_ok K e Hlcd)
      as (got & gw & tw & _ & _ & _ & _ & B & Hm).
    rewrite Hm, B. revert Hc.
    repeat split; boot_cases K e got; try discriminate; reflexivity.
  - unfold boot. rewrite (main_calls_display_failed K e Hlcd),
      (boot_display_failed K e Hlcd). revert Hc.
    repeat split; boot_cases K e 0; try discriminate; reflexivity.
Qed.

Lemma X9_no_erase_without_corruption_signal_witness :
  is_corruption idf (nvs_first_init env_store_other_error) = false /\
  nvs_first_init env_store_other_error <> ESP_OK idf /\
  count is_nvs_erase (main_calls idf env_store_other_error) = 0%nat /\
  returned (boot idf env_store_other_error) = true.
Proof.
  split; [reflexivity|]. split; [discriminate|].
  destruct (X9_no_erase_without_corruption_signal idf env_store_other_error
              eq_refl) as (H1 & _ & H2).
  split; assumption.
Defined.

Lemma guarded_by_prefix (p q : call -> bool) (a r : list call) :
  existsb p a = true -> guarded_by p q a = true ->
  guarded_by p q (a ++ r) = true.
Proof.
  induction a as [|c a IH]; cbn [existsb guarded_by app]; [discriminate|].
  destruct (p c); [reflexivity|]. cbn [orb]. intros He Hg.
  apply andb_true_iff in Hg as [Hq Hg]. rewrite Hq. cbn [andb]. now apply IH.
Qed.

(** X10: in every boot, each resource is set up before it is used.  Over
    the calls of all tasks: the event group is created before any wait on
    it or any bit set in it, and the handler is registered before the radio
    is started.  Over the calls of the main task: the display is
    initialised before its brightness is set and before the UI engine is
    started, the UI engine is started before any widget is created and
    before the tick timer and the render task are started, and the time
    sync is started only after the radio. *)
Theorem X10_set_up_before_use (K : sdk_constants) (e : boot_env) :
  guarded_by is_group_create uses_event_group (all_calls K e) = true /\
  guarded_by is_register is_wifi_start (all_calls K e) = true /\
  guarded_by is_lcd_init is_brightness (main_calls K e) = true /\
  guarded_by is_lcd_init is_lv_init (main_calls K e) = true /\
  guarded_by is_lv_init needs_lv_init (main_calls K e) = true /\
  guarded_by is_wifi_start is_sntp_init (main_calls K e) = true.
Proof.
  destruct (lcd_init_ok e) eqn:Hlcd.
  - destruct (main_calls_display_ok K e Hlcd)
      as (got & gw & tw & _ & _ & _ & _ & B & Hm).
    assert (Ha : all_calls K e
                 = calls_to_wait K e
                   ++ (map snd tw ++ calls_after_wait got ++ watchdog_calls)).
    { unfold all_calls. rewrite B. cbn [trace_of].
      now rewrite !map_app, !map_snd_on_task. }
    rewrite Ha, Hm. split; [|split].
    + apply guarded_by_prefix; boot_cases K e got; reflexivity.
    + apply guarded_by_prefix; boot_cases K e got; reflexivity.
    + repeat split; boot_cases K e got; reflexivity.
  - rewrite (main_calls_display_failed K e Hlcd),
      (all_calls_display_failed K e Hlcd).
    repeat split; boot_cases K e 0; reflexivity.
Qed.

Lemma main_loop_trace (n : nat) (g : globals) :
  main_loop n g = Done tt g (on_task MainTask (supervisor_calls n)).
Proof.
  induction n as [|n IH]; [reflexivity|].
  cbn [main_loop]. cbv [bind main_loop_period emit invoke]. rewrite IH.
  reflexivity.
Qed.

(** X11: [app_main] with [n] turns of its closing loop.  When the display
    came up, the main task's calls are those of the boot followed by [n]
    times the delay and the reset, so the [n] resets all come after the
    task has subscribed to the watchdog; when the display failed the loop
    is never entered and no reset is called. *)
Theorem X11_resets_after_subscription
  (K : sdk_constants) (e : boot_env) (n : nat) :
  calls_of MainTask (trace_of (app_main K e n initial_globals))
  = main_calls K e ++ (if lcd_init_ok e then supervisor_calls n else []) /\
  guarded_by is_wdt_add is_wdt_reset
    (calls_of MainTask (trace_of (app_main K e n initial_globals))) = true /\
  count is_wdt_reset
    (calls_of MainTask (trace_of (app_main K e n initial_globals)))
  = (if lcd_init_ok e then n else 0%nat).
Proof.
  destruct (lcd_init_ok e) eqn:Hlcd.
  - destruct (main_calls_display_ok K e Hlcd)
      as (got & gw & tw & _ & _ & _ & _ & B & Hm).
    assert (Hcalls : calls_of MainTask (trace_of (app_main K e n initial_globals))
                     = main_calls K e ++ supervisor_calls n).
    { unfold app_main, bind. fold (boot K e). unfold main_calls. rewrite B.
      rewrite main_loop_trace. cbn [trace_of].
      now rewrite calls_of_app, calls_of_on_task_same. }
    rewrite Hcalls. split; [reflexivity|]. split.
    + rewrite Hm. apply guarded_by_prefix; boot_cases K e got; reflexivity.
    + rewrite count_app, supervisor_calls_resets, Hm.
      replace (count is_wdt_reset
                 (calls_to_wait K e ++ calls_after_wait got ++ watchdog_calls))
        with 0%nat by (boot_cases K e got; reflexivity).
      reflexivity.
  - assert (Hcalls : calls_of MainTask (trace_of (app_main K e n initial_globals))
                     = main_calls K e).
    { unfold app_main, bind, main_calls, boot.
      now rewrite (boot_display_failed K e Hlcd). }
    rewrite Hcalls, app_nil_r, (main_calls_display_failed K e Hlcd).
    repeat split; boot_cases K e 0; reflexivity.
Qed.

(** ** The running system, task by task *)

Lemma globals_of_extend {A} (t1 : trace) (r : result A) :
  globals_of (match r with
              | Done b g2 t2 => Done b g2 (t1 ++ t2)
              | Rebooted g2 t2 => Rebooted g2 (t1 ++ t2)
              end) = globals_of r.
Proof. now destruct r. Qed.

Lemma perform_keeps_globals (K : sdk_constants) (a : activity) (g : globals) :
  events_of [a] = [] ->
  exists t, perform K a g = Done tt g t.
Proof.
  destruct a as [|areas| |b i]; cbn [perform]; intros He.
  - eexists. reflexivity.
  - rewrite lvgl_task_period_trace. eexists. reflexivity.
  - eexists. reflexivity.
  - discriminate He.
Qed.

(** X12: the supervisory loop, the render task (flushes included) and the
    tick timer never write the globals: after any schedule the globals are
    what the link events of the schedule alone, in their order, make of
    them. *)
Theorem X12_only_link_events_write_globals
  (K : sdk_constants) (sched : list activity) (g : globals) :
  globals_of (run K sched g)
  = globals_of (deliver_all K (events_of sched) g).
Proof.
  revert g. induction sched as [|a sched IH]; intros g; [reflexivity|].
  destruct a as [|areas| |b i].
  - destruct (perform_keeps_globals K SupervisorTurn g eq_refl) as (t & E).
    cbn [run]. unfold bind. rewrite E, globals_of_extend. apply IH.
  - destruct (perform_keeps_globals K (RenderTurn areas) g eq_refl) as (t & E).
    cbn [run]. unfold bind. rewrite E, globals_of_extend. apply IH.
  - destruct (perform_keeps_globals K TickFire g eq_refl) as (t & E).
    cbn [run]. unfold bind. rewrite E, globals_of_extend. apply IH.
  - cbn [run perform events_of flat_map app deliver_all]. unfold bind.
    destruct (deliver K (b, i) g) as [[] g1 t1|]; [|reflexivity].
    rewrite !globals_of_extend. apply IH.
Qed.

Lemma event_entries_not_render (t : trace) :
  Forall event_task_entry t -> calls_of RenderTask t = [].
Proof.
  unfold calls_of. induction 1 as [|[c x] t [Hx _] _ IH]; [reflexivity|].
  cbn in Hx. subst c. cbn. exact IH.
Qed.

Lemma run_render_calls (K : sdk_constants) (sched : list activity)
  (g : globals) :
  exists g' t,
    run K sched g = Done tt g' t /\
    calls_of RenderTask t = render_calls sched.
Proof.
  revert g. induction sched as [|a sched IH]; intros g.
  - exists g, []. split; reflexivity.
  - cbn [run]. unfold bind.
    assert (Hstep : exists g1 t1, perform K a g = Done tt g1 t1 /\
                                  calls_of RenderTask t1 = render_calls [a]).
    { destruct a as [|areas| |b i]; cbn [perform].
      - do 2 eexists. split; reflexivity.
      - rewrite lvgl_task_period_trace. do 2 eexists. split; [reflexivity|].
        cbn [render_calls flat_map]. rewrite app_nil_r.
        apply calls_of_on_task_same.
      - do 2 eexists. split; reflexivity.
      - destruct (deliver_frame K (b, i) g) as [Hd Hev _ _].
        destruct (deliver K (b, i) g) as [[] g1 t1|]; [|discriminate Hd].
        exists g1, t1. split; [reflexivity|].
        now apply event_entries_not_render. }
    destruct Hstep as (g1 & t1 & E1 & R1). rewrite E1.
    destruct (IH g1) as (g2 & t2 & E2 & R2). rewrite E2.
    exists g2, (t1 ++ t2). split; [reflexivity|].
    rewrite calls_of_app, R1, R2. unfold render_calls.
    change (a :: sched) with ([a] ++ sched). now rewrite flat_map_app.
Qed.

Lemma flush_calls_counts (areas : list lv_area_t) :
  count is_push (flush_calls areas) = List.length areas /\
  count is_flush_ready (flush_calls areas) = List.length areas /\
  count is_task_handler (flush_calls areas) = 0%nat.
Proof.
  induction areas as [|a areas (IH1 & IH2 & IH3)]; [repeat split|].
  unfold count in *. cbn [flush_calls flat_map app filter is_push
    is_flush_ready is_task_handler List.length].
  fold (flush_calls areas). rewrite IH1, IH2, IH3. repeat split.
Qed.

Lemma render_calls_counts (sched : list activity) :
  count is_push (render_calls sched) = List.length (flushed_areas sched) /\
  count is_flush_ready (render_calls sched)
  = List.length (flushed_areas sched) /\
  count is_task_handler (render_calls sched) = count is_render_turn sched.
Proof.
  induction sched as [|a sched (IH1 & IH2 & IH3)]; [repeat split|].
  change (a :: sched) with ([a] ++ sched).
  unfold render_calls, flushed_areas in *. rewrite !flat_map_app.
  rewrite !count_app, !length_app, IH1, IH2, IH3.
  destruct a as [|areas| |b i]; cbn [flat_map app]; try (repeat split; fail).
  rewrite !app_nil_r.
  destruct (flush_calls_counts areas) as (F1 & F2 & F3).
  change (lv_task_handler :: flush_calls areas ++ [vTaskDelay LVGL_TICK_MS])
    with ([lv_task_handler] ++ flush_calls areas ++ [vTaskDelay LVGL_TICK_MS]).
  rewrite !count_app, F1, F2, F3. cbn. repeat split; lia.
Qed.

Lemma acks_follow_flush_calls (areas : list lv_area_t) (rest : list call) :
  acks_follow_pushes (flush_calls areas ++ rest) = acks_follow_pushes rest.
Proof.
  induction areas as [|a areas IH]; [reflexivity|].
  cbn [flush_calls flat_map app acks_follow_pushes]. exact IH.
Qed.

Lemma acks_follow_render_calls (sched : list activity) :
  acks_follow_pushes (render_calls sched) = true.
Proof.
  induction sched as [|a sched IH]; [reflexivity|].
  destruct a as [|areas| |b i]; cbn [render_calls flat_map app]; try exact IH.
  cbn [acks_follow_pushes]. rewrite <- app_assoc, acks_follow_flush_calls.
  exact IH.
Qed.

(** X13: every flush is acknowledged.  In every schedule the render task
    acknowledges each push at once and acknowledges nothing else: every
    [lcd.pushColors] is followed immediately by [lv_disp_flush_ready], there
    are as many acknowledgements as pushes, one per flushed region, and
    one [lv_task_handler] per turn.  The rest of the render task's code,
    its start log and the refresh of the status bar, pushes and
    acknowledges nothing. *)
Theorem X13_every_flush_acknowledged
  (K : sdk_constants) (sched : list activity) (g : globals) :
  (exists g' t,
     run K sched g = Done tt g' t /\
     acks_follow_pushes (calls_of RenderTask t) = true /\
     count is_push (calls_of RenderTask t) = List.length (flushed_areas sched) /\
     count is_flush_ready (calls_of RenderTask t)
     = List.length (flushed_areas sched) /\
     count is_task_handler (calls_of RenderTask t)
     = count is_render_turn sched) /\
  (forall buf g0,
     Forall no_flush_entry
       (trace_of (lvgl_task_start g0) ++ trace_of (update_status_bar buf g0))).
Proof.
  split.
  - destruct (run_render_calls K sched g) as (g' & t & E & R).
    exists g', t. rewrite R.
    destruct (render_calls_counts sched) as (C1 & C2 & C3).
    repeat split; try assumption. apply acks_follow_render_calls.
  - intros buf g0. cbn. repeat constructor.
Qed.

(** X15: for a region inside the panel the flush callback pushes between 1
    and 320 x 480 pixels, the product of the width and the height of the
    region, so the count fits a 32-bit integer, and it acknowledges the
    flush right after the push. *)
Theorem X15_flush_pixel_count (a : lv_area_t) (g : globals) :
  within_panel a ->
  flush_cb a g
  = Done tt g
      [(RenderTask,
        lcd_pushColors ((x2 a - x1 a + 1) * (y2 a - y1 a + 1)));
       (RenderTask, lv_disp_flush_ready)] /\
  1 <= (x2 a - x1 a + 1) * (y2 a - y1 a + 1) <= SCREEN_WIDTH * SCREEN_HEIGHT /\
  SCREEN_WIDTH * SCREEN_HEIGHT < 2 ^ 31.
Proof.
  unfold within_panel, SCREEN_WIDTH, SCREEN_HEIGHT.
  intros (Hx & Hx2 & Hy & Hy2). split; [reflexivity|]. split; [|reflexivity].
  split; nia.
Qed.

Lemma X15_flush_pixel_count_witness :
  within_panel (mkArea 0 0 319 479) /\
  flush_cb (mkArea 0 0 319 479) initial_globals
  = Done tt initial_globals
      [(RenderTask, lcd_pushColors 153600);
       (RenderTask, lv_disp_flush_ready)].
Proof.
  assert (H : within_panel (mkArea 0 0 319 479))
    by (unfold within_panel, SCREEN_WIDTH, SCREEN_HEIGHT; cbn; lia).
  split; [exact H|].
  exact (proj1 (X15_flush_pixel_count (mkArea 0 0 319 479) initial_globals H)).
Defined.

(** ** What the status bar shows *)

Lemma status_bar_texts (buf : string) (g : globals) :
  update_status_bar buf g
  = Done [(time_label, buf);
          (wifi_icon, (if wifi_connected g then "WiFi ON" else "WiFi OFF")%string);
          (bt_icon, (if bt_enabled g then "BT ON" else "BT OFF")%string)]
      g
      (on_task RenderTask
         [lv_widget "lv_label_set_text"; lv_widget "lv_label_set_text";
          lv_widget "lv_label_set_text"]).
Proof. reflexivity. Qed.

Lemma boot_globals (K : sdk_constants) (e : boot_env) :
  lcd_init_ok e = true ->
  globals_of (boot K e) = set_bt_enabled true (globals_of (wait_outcome K e)).
Proof.
  intros Hlcd.
  destruct (main_calls_display_ok K e Hlcd)
    as (got & gw & tw & E & _ & _ & _ & B & _).
  now rewrite B, E.
Qed.

Lemma flag_stays_down_without_got_ip (K : sdk_constants)
  (evs : list (esp_event_base_t * Z)) (g : globals) :
  wifi_connected g = false ->
  existsb (carries_got_ip K) evs = false ->
  wifi_connected (globals_of (deliver_all K evs g)) = false.
Proof.
  revert g. induction evs as [|[b i] evs IH]; intros g Hg Hn; [exact Hg|].
  cbn [existsb] in Hn. apply orb_false_iff in Hn as [Hi Hn].
  unfold carries_got_ip in Hi. cbn [snd] in Hi.
  cbn [deliver_all]. unfold bind.
  assert (Hd : exists g1 t1, deliver K (b, i) g = Done tt g1 t1
                             /\ wifi_connected g1 = false).
  { handler_cases K b i; try congruence;
      do 2 eexists; split; try reflexivity; exact Hg. }
  destruct Hd as (g1 & t1 & E1 & H1). rewrite E1, globals_of_extend.
  now apply IH.
Qed.

(** X16: when the display came up, a refresh of the status bar after the
    boot and after any link events handled since shows "BT ON" whatever the
    short-range-radio calls returned, and shows the formatted time as it
    is; when the wait of [wifi_init] ran out and none of the events handled
    since carries the id [IP_EVENT_STA_GOT_IP], it shows "WiFi OFF"; the
    refresh changes no global. *)
Theorem X16_status_bar_after_boot
  (K : sdk_constants) (e : boot_env) (later : list (esp_event_base_t * Z))
  (buf : string) :
  lcd_init_ok e = true ->
  shown bt_icon
    (status_bar buf (globals_of (deliver_all K later (globals_of (boot K e)))))
  = Some "BT ON"%string /\
  (wait_expired K e = true ->
   existsb (carries_got_ip K) later = false ->
   shown wifi_icon
     (status_bar buf (globals_of (deliver_all K later (globals_of (boot K e)))))
   = Some "WiFi OFF"%string) /\
  shown time_label
    (status_bar buf (globals_of (deliver_all K later (globals_of (boot K e)))))
  = Some buf /\
  globals_of
    (update_status_bar buf
       (globals_of (deliver_all K later (globals_of (boot K e)))))
  = globals_of (deliver_all K later (globals_of (boot K e))).
Proof.
  intros Hlcd. rewrite (boot_globals K e Hlcd).
  destruct (deliver_all_summary K later
              (set_bt_enabled true (globals_of (wait_outcome K e))))
    as (g' & t & E & _ & _ & Hbt & _).
  assert (Hw : wait_expired K e = true ->
               existsb (carries_got_ip K) later = false ->
               wifi_connected g' = false).
  { intros Hexp Hn.
    pose proof (flag_stays_down_without_got_ip K later
                  (set_bt_enabled true (globals_of (wait_outcome K e)))) as H.
    rewrite E in H. apply H; [|exact Hn].
    cbn [set_bt_enabled wifi_connected]. rewrite wait_return_flag, Hexp.
    reflexivity. }
  rewrite E. cbn [globals_of]. unfold status_bar. rewrite status_bar_texts.
  cbn [shown label_eqb globals_of]. rewrite Hbt.
  cbn [set_bt_enabled bt_enabled]. repeat split.
  intros Hexp Hn. now rewrite (Hw Hexp Hn).
Qed.

Lemma X16_status_bar_after_boot_witness :
  lcd_init_ok env_no_access_point = true /\
  wait_expired idf env_no_access_point = true /\
  existsb (carries_got_ip idf)
    [(WIFI_EVENT, WIFI_EVENT_STA_DISCONNECTED idf)] = false /\
  shown wifi_icon
    (status_bar "03/11/2026 10:15"
       (globals_of
          (deliver_all idf [(WIFI_EVENT, WIFI_EVENT_STA_DISCONNECTED idf)]
             (globals_of (boot idf env_no_access_point)))))
  = Some "WiFi OFF"%string.
Proof.
  split; [reflexivity|]. split; [reflexivity|]. split; [reflexivity|].
  destruct (X16_status_bar_after_boot idf env_no_access_point
              [(WIFI_EVENT, WIFI_EVENT_STA_DISCONNECTED idf)]
              "03/11/2026 10:15" eq_refl) as (_ & H & _).
  exact (H eq_refl eq_refl).
Defined.

Lemma deliver_all_snoc (K : sdk_constants)
  (evs : list (esp_event_base_t * Z)) (ev : esp_event_base_t * Z)
  (g : globals) :
  globals_of (deliver_all K (evs ++ [ev]) g)
  = globals_of (deliver K ev (globals_of (deliver_all K evs g))).
Proof.
  revert g. induction evs as [|ev' evs IH]; intros g.
  - cbn [app deliver_all]. unfold bind, ret. cbn [globals_of].
    destruct (deliver K ev g) as [[] g1 t1|]; reflexivity.
  - cbn [app deliver_all]. unfold bind.
    destruct (deliver_frame K ev' g) as [Hd _ _ _].
    destruct (deliver K ev' g) as [[] g1 t1|]; [|discriminate Hd].
    rewrite !globals_of_extend. apply IH.
Qed.

(** X17: the status bar follows the last link event.  After any sequence
    of events that ends with a Disconnected event a refresh shows
    "WiFi OFF", and after any sequence that ends with an acquired address
    it shows "WiFi ON"; what it shows for the short-range radio is the same
    before and after any sequence of link events. *)
Theorem X17_status_bar_follows_last_event
  (K : sdk_constants) (evs : list (esp_event_base_t * Z)) (g : globals)
  (buf : string) :
  WIFI_EVENT_STA_START K <> WIFI_EVENT_STA_DISCONNECTED K ->
  IP_EVENT_STA_GOT_IP K <> WIFI_EVENT_STA_START K ->
  IP_EVENT_STA_GOT_IP K <> WIFI_EVENT_STA_DISCONNECTED K ->
  shown wifi_icon
    (status_bar buf
       (globals_of
          (deliver_all K (evs ++ [(WIFI_EVENT, WIFI_EVENT_STA_DISCONNECTED K)]) g)))
  = Some "WiFi OFF"%string /\
  shown wifi_icon
    (status_bar buf
       (globals_of
          (deliver_all K (evs ++ [(IP_EVENT, IP_EVENT_STA_GOT_IP K)]) g)))
  = Some "WiFi ON"%string /\
  shown bt_icon (status_bar buf (globals_of (deliver_all K evs g)))
  = shown bt_icon (status_bar buf g).
Proof.
  intros H1 H2 H3. split; [|split].
  - rewrite deliver_all_snoc. unfold deliver. cbn [registered fst snd].
    rewrite (handler_disconnected K WIFI_EVENT _ H1). reflexivity.
  - rewrite deliver_all_snoc. unfold deliver. cbn [registered fst snd].
    rewrite Z.eqb_refl. rewrite (handler_got_ip K IP_EVENT _ H2 H3).
    reflexivity.
  - destruct (deliver_all_summary K evs g) as (g' & t & E & _ & _ & Hbt & _).
    rewrite E. unfold status_bar. rewrite !status_bar_texts.
    cbn [shown label_eqb globals_of]. now rewrite Hbt.
Qed.

Lemma X17_status_bar_follows_last_event_witness :
  WIFI_EVENT_STA_START idf <> WIFI_EVENT_STA_DISCONNECTED idf /\
  IP_EVENT_STA_GOT_IP idf <> WIFI_EVENT_STA_START idf /\
  IP_EVENT_STA_GOT_IP idf <> WIFI_EVENT_STA_DISCONNECTED idf /\
  shown wifi_icon
    (status_bar "03/11/2026 10:15"
       (globals_of
          (deliver_all idf
             ([(WIFI_EVENT, WIFI_EVENT_STA_START idf);
               (IP_EVENT, IP_EVENT_STA_GOT_IP idf)]
              ++ [(WIFI_EVENT, WIFI_EVENT_STA_DISCONNECTED idf)])
             initial_globals)))
  = Some "WiFi OFF"%string.
Proof.
  assert (H1 : WIFI_EVENT_STA_START idf <> WIFI_EVENT_STA_DISCONNECTED idf)
    by discriminate.
  assert (H2 : IP_EVENT_STA_GOT_IP idf <> WIFI_EVENT_STA_START idf)
    by discriminate.
  assert (H3 : IP_EVENT_STA_GOT_IP idf <> WIFI_EVENT_STA_DISCONNECTED idf)
    by discriminate.
  split; [exact H1|]. split; [exact H2|]. split; [exact H3|].
  exact (proj1 (X17_status_bar_follows_last_event idf
                  [(WIFI_EVENT, WIFI_EVENT_STA_START idf);
                   (IP_EVENT, IP_EVENT_STA_GOT_IP idf)]
                  initial_globals "03/11/2026 10:15" H1 H2 H3)).
Defined.

(** ** Who resets the watchdog *)

Lemma resets_counted_on_main (t : trace) :
  Forall reset_by_main t ->
  count is_wdt_reset (map snd t) = count is_wdt_reset (calls_of MainTask t).
Proof.
  unfold count, calls_of.
  induction 1 as [|[ctx c] t Hx _ IH]; [reflexivity|].
  unfold reset_by_main in Hx. cbn [fst snd] in Hx.
  cbn [map filter fst snd].
  destruct (is_wdt_reset c) eqn:Hc.
  - rewrite (Hx eq_refl). cbn [task_eqb map snd filter]. rewrite Hc.
    cbn [List.length]. now rewrite IH.
  - destruct (task_eqb ctx MainTask); cbn [map snd filter]; rewrite ?Hc;
      exact IH.
Qed.

(** X18: in every schedule of the running system the watchdog reset is
    called by the main task alone, never by the render task, the tick timer
    or the event handler; the main task's calls are, for each turn of its
    closing loop, the delay of 1000 ms and then the reset, so over all
    tasks there are as many resets as completed turns of that loop, and
    none when it completes none.  The start log of the render task and the
    refresh of the status bar call no reset either. *)
Theorem X18_reset_only_from_main_loop
  (K : sdk_constants) (sched : list activity) (g : globals) :
  (exists g' t,
     run K sched g = Done tt g' t /\
     Forall reset_by_main t /\
     calls_of MainTask t = supervisor_calls (count is_supervisor_turn sched) /\
     count is_wdt_reset (map snd t) = count is_supervisor_turn sched) /\
  (forall buf g0,
     Forall reset_by_main
       (trace_of (lvgl_task_start g0) ++ trace_of (update_status_bar buf g0))).
Proof.
  split.
  - destruct (run_turns K sched g) as (g' & t & E & Hm & Hr).
    exists g', t. repeat split; auto.
    rewrite (resets_counted_on_main t Hr), Hm. apply supervisor_calls_resets.
  - intros buf g0. cbn. repeat constructor; intros F; discriminate F.
Qed.
